(** * HPF companion-package scoring: a shallow embedding of
    [src/scoring/hpf_scoring.py] and the properties of its specification.

    Conventions of the embedding.
    - numpy floats are modelled as exact rationals ([Q]), and so is the
      true division of two lengths in [predict]; the Poisson and Gamma
      densities of edward/tensorflow are external and enter as the section
      variables [poisson_prob] and [gamma_prob].
    - Python dictionaries whose iteration order is observable
      ([package_id_dict], [id_package_dict], [manifest_id_dict]) are
      insertion-ordered association lists with unique keys ([dict_set]
      overwrites in place); Python sets are [gset]s, whose [elements] stand
      for the unspecified iteration order of a set.
    - exceptions are values of [exn] carried by the [res] monad; the loaders,
      which touch the local disk, live in the state-and-error monad [io]. *)

From Stdlib Require Import Ascii String QArith Qminmax.
From stdpp Require Import gmap strings list fin_maps sorting.

Open Scope string_scope.
Open Scope Z_scope.

(** ** Exceptions and the two monads *)

Inductive exn : Type :=
  | ZeroDivisionError
  | KeyError
  | IndexError
  | ValueError
  | TypeError
  | FileNotFoundError
  | ClientError.

Inductive res (A : Type) : Type :=
  | Ok (a : A)
  | Raise (e : exn).
Arguments Ok {A} a.
Arguments Raise {A} e.

#[global] Instance res_ret : MRet res := fun A a => Ok a.

#[global] Instance res_bind : MBind res := fun A B k m =>
  match m with
  | Ok a => k a
  | Raise e => Raise e
  end.

Fixpoint mapM_res {A B} (f : A -> res B) (l : list A) : res (list B) :=
  match l with
  | [] => Ok []
  | x :: l' => y ← f x; ys ← mapM_res f l'; Ok (y :: ys)
  end.

Definition is_ok {A} (r : res A) : bool :=
  match r with Ok _ => true | Raise _ => false end.

(** ** Insertion-ordered dictionaries *)

Section PyDict.
Context {K V : Type} `{EqDecision K}.

Fixpoint dict_get (d : list (K * V)) (k : K) : option V :=
  match d with
  | [] => None
  | (k', v) :: d' => if decide (k' = k) then Some v else dict_get d' k
  end.

(** [d[k] = v]: an existing key keeps its position, a new key goes last. *)
Fixpoint dict_set (d : list (K * V)) (k : K) (v : V) : list (K * V) :=
  match d with
  | [] => [(k, v)]
  | (k', v') :: d' =>
      if decide (k' = k) then (k', v) :: d' else (k', v') :: dict_set d' k v
  end.

(** [d[k]], which raises [KeyError] on an absent key. *)
Definition dict_getitem (d : list (K * V)) (k : K) : res V :=
  match dict_get d k with
  | Some v => Ok v
  | None => Raise KeyError
  end.

Definition dict_of_items (l : list (K * V)) : list (K * V) :=
  foldl (fun d kv => dict_set d kv.1 kv.2) [] l.

Definition dict_wf (d : list (K * V)) : Prop := NoDup d.*1.
End PyDict.

(** [{f(k, v) for k, v in d.items()}] as a dictionary comprehension. *)
Definition dict_comp {K V K' V'} `{EqDecision K'}
    (f : K * V -> K' * V') (d : list (K * V)) : list (K' * V') :=
  dict_of_items (f <$> d).

(** ** Builtins: [os.path.join], [int], slices, numpy indexing *)

Definition starts_with_sep (s : string) : bool :=
  match s with
  | String c _ => bool_decide (c = "/"%char)
  | EmptyString => false
  end.

Fixpoint ends_with_sep (s : string) : bool :=
  match s with
  | EmptyString => false
  | String c EmptyString => bool_decide (c = "/"%char)
  | String _ s' => ends_with_sep s'
  end.

(** posixpath.join: an absolute component restarts the path. *)
Definition path_join (p : string) (rest : list string) : string :=
  foldl (fun path b =>
           if starts_with_sep b then b
           else if bool_decide (path = "") || ends_with_sep path then path +:+ b
           else path +:+ "/" +:+ b) p rest.

Definition digit_of (c : ascii) : option Z :=
  let n := Z.of_nat (nat_of_ascii c) in
  if (48 <=? n) && (n <=? 57) then Some (n - 48) else None.

Fixpoint digits_val (acc : Z) (s : string) : option Z :=
  match s with
  | EmptyString => Some acc
  | String c s' =>
      match digit_of c with
      | Some d => digits_val (10 * acc + d) s'
      | None => None
      end
  end.

(** [int(s)] on a decimal literal with an optional sign, the form of the
    keys of the manifest dictionary (row numbers written as JSON keys);
    anything else is a [ValueError]. *)
Definition int_of_str (s : string) : res Z :=
  let unsigned (t : string) :=
    match t with
    | EmptyString => None
    | _ => digits_val 0 t
    end in
  let r :=
    match s with
    | String "-"%char t => Z.opp <$> unsigned t
    | String "+"%char t => unsigned t
    | _ => unsigned s
    end in
  match r with
  | Some z => Ok z
  | None => Raise ValueError
  end.

(** The value [match_manifest] returns: a key of the JSON object (a string)
    or the integer [-1]. *)
Inductive pyval : Type :=
  | PyStr (s : string)
  | PyInt (z : Z).

Definition py_int (v : pyval) : res Z :=
  match v with
  | PyStr s => int_of_str s
  | PyInt z => Ok z
  end.

(** [l[start:len(l)]] with Python's clipping of the start index. *)
Definition slice_from {A} (start : Z) (l : list A) : list A :=
  let n := Z.of_nat (length l) in
  let lo := if start <? 0 then Z.max (n + start) 0 else Z.min start n in
  drop (Z.to_nat lo) l.

(** [a[i]] on the first axis of an array: negative indices count from the
    end, anything outside raises [IndexError]. *)
Definition np_index {A} (a : list A) (i : Z) : res A :=
  let n := Z.of_nat (length a) in
  let j := if i <? 0 then n + i else i in
  if (0 <=? j) && (j <? n) then
    match a !! Z.to_nat j with
    | Some x => Ok x
    | None => Raise IndexError
    end
  else Raise IndexError.

(** ** Scores *)

(** A dense two-dimensional array, row by row. *)
Abbreviation matrix := (list (list Q)).

Definition Qsum (row : list Q) : Q := foldr Qplus 0%Q row.

(** [row.mean()]. *)
Definition mean (row : list Q) : Q :=
  (Qsum row / inject_Z (Z.of_nat (length row)))%Q.

(** Insertion of an (index, score) pair in front of the first pair whose
    score is not smaller. *)
Fixpoint insert_pair (p : nat * Q) (l : list (nat * Q)) : list (nat * Q) :=
  match l with
  | [] => [p]
  | q :: l' =>
      if Qle_bool p.2 q.2 then p :: q :: l' else q :: insert_pair p l'
  end.

Definition sort_pairs (l : list (nat * Q)) : list (nat * Q) :=
  foldr insert_pair [] l.

(** [result.argsort()]: the indices of [result] in ascending order of score.
    Ties keep index order, as numpy's sort does on short arrays; the
    properties below only use that the outcome is an ascending permutation
    of the indices. *)
Definition argsort (result : list Q) : list nat :=
  (sort_pairs (imap (fun i x => (i, x)) result)).*1.

(** [len(x) / len(y)]: true division of two lengths. *)
Definition py_div (n m : nat) : res Q :=
  match m with
  | O => Raise ZeroDivisionError
  | S _ => Ok (inject_Z (Z.of_nat n) / inject_Z (Z.of_nat m))%Q
  end.

Definition Qlt_bool (x y : Q) : bool := negb (Qle_bool y x).

(** Truth value of what [dict.get] returns: [None] and [0] are false. *)
Definition truthy (o : option Z) : bool :=
  match o with
  | Some z => negb (z =? 0)
  | None => false
  end.

(** ** Configuration, storage back ends and the local disk *)

(** The constants imported from [src.config]. *)
Record Config : Type := {
  UNKNOWN_PACKAGES_THRESHOLD : Q;
  MAX_COMPANION_REC_COUNT : Z;
  HPF_SCORING_REGION : string;
  HPF_output_package_id_dict : string;
  HPF_output_manifest_id_dict : string;
  HPF_output_user_matrix : string;
  HPF_output_item_matrix : string;
  a : Q;
  a_c : Q;
  b_c : Q;
  K : nat
}.

(** A file holding a scipy sparse matrix, or bytes [load_npz] rejects. *)
Inductive file : Type :=
  | Npz (m : matrix)
  | Corrupt.

(** The two JSON documents of a model, as the parser hands them over. *)
Inductive json_doc : Type :=
  | JsonPackages (items : list (string * Z))
  | JsonManifests (items : list (string * list Z)).

(** The two back ends.  [bucket] holds the objects [download_file] can
    fetch, [documents] the JSON files [read_json_file] can parse. *)
Inductive store_kind : Type :=
  | S3DataStore
  | LocalDataStore.

Record DataStore : Type := {
  kind : store_kind;
  src_dir : string;
  bucket : gmap string file;
  documents : gmap string json_doc
}.

(** A computation on the local disk, a map from paths to contents: it
    returns the disk it leaves behind together with a value or the exception
    raised; what was written before a raise stays written. *)
Record io (A : Type) : Type :=
  IO { run : gmap string file -> gmap string file * res A }.
Arguments IO {A} run.
Arguments run {A} i fs.

#[global] Instance io_ret : MRet io := fun A x => IO (fun fs => (fs, Ok x)).

#[global] Instance io_bind : MBind io := fun A B k m =>
  IO (fun fs =>
        match run m fs with
        | (fs', Ok x) => run (k x) fs'
        | (fs', Raise e) => (fs', Raise e)
        end).

Definition lift {A} (r : res A) : io A := IO (fun fs => (fs, r)).

Definition download_file (ds : DataStore) (key dest : string) : io unit :=
  IO (fun fs =>
        match bucket ds !! key with
        | Some f => (<[dest := f]> fs, Ok tt)
        | None => (fs, Raise ClientError)
        end).

(** A parsed JSON object is a dictionary: of two items with the same key
    the later one stays. *)
Definition read_json_file (ds : DataStore) (filename : string) : res json_doc :=
  match documents ds !! filename with
  | Some (JsonPackages items) => Ok (JsonPackages (dict_of_items items))
  | Some (JsonManifests items) => Ok (JsonManifests (dict_of_items items))
  | None => Raise ClientError
  end.

(** [sparse.load_npz(path).toarray()]. *)
Definition load_npz (path : string) : io matrix :=
  IO (fun fs =>
        match fs !! path with
        | Some (Npz m) => (fs, Ok m)
        | Some Corrupt => (fs, Raise ValueError)
        | None => (fs, Raise FileNotFoundError)
        end).

Definition os_remove (path : string) : io unit :=
  IO (fun fs =>
        match fs !! path with
        | Some _ => (delete path fs, Ok tt)
        | None => (fs, Raise FileNotFoundError)
        end).

(** ** The scoring object *)

Record recommendation : Type := {
  cooccurrence_probability : Q;
  package_name : string;
  topic_list : list string
}.

(** The attributes of the object.  [beta] and [theta] start as [None] in
    the source and are modelled as empty arrays until a loader sets them;
    nothing reads them in between. *)
Record HPFScoring : Type := {
  datastore : DataStore;
  package_id_dict : list (string * Z);
  id_package_dict : list (Z * string);
  beta : matrix;
  theta : matrix;
  manifest_id_dict : list (string * gset Z);
  manifests : nat;
  packages : nat;
  epsilon : Q;
  theta_dummy : list Q;
  dummy_result : matrix
}.

Definition set_theta (self : HPFScoring) (x : matrix) : HPFScoring :=
  {| datastore := datastore self; package_id_dict := package_id_dict self;
     id_package_dict := id_package_dict self; beta := beta self; theta := x;
     manifest_id_dict := manifest_id_dict self; manifests := manifests self;
     packages := packages self; epsilon := epsilon self;
     theta_dummy := theta_dummy self; dummy_result := dummy_result self |}.

Definition set_beta (self : HPFScoring) (x : matrix) : HPFScoring :=
  {| datastore := datastore self; package_id_dict := package_id_dict self;
     id_package_dict := id_package_dict self; beta := x; theta := theta self;
     manifest_id_dict := manifest_id_dict self; manifests := manifests self;
     packages := packages self; epsilon := epsilon self;
     theta_dummy := theta_dummy self; dummy_result := dummy_result self |}.

Definition set_dicts (self : HPFScoring) (pid : list (string * Z))
    (idp : list (Z * string)) (mid : list (string * gset Z)) : HPFScoring :=
  {| datastore := datastore self; package_id_dict := pid;
     id_package_dict := idp; beta := beta self; theta := theta self;
     manifest_id_dict := mid; manifests := manifests self;
     packages := packages self; epsilon := epsilon self;
     theta_dummy := theta_dummy self; dummy_result := dummy_result self |}.

Definition set_derived (self : HPFScoring) (nm np : nat) (dr : matrix)
    : HPFScoring :=
  {| datastore := datastore self; package_id_dict := package_id_dict self;
     id_package_dict := id_package_dict self; beta := beta self;
     theta := theta self; manifest_id_dict := manifest_id_dict self;
     manifests := nm; packages := np; epsilon := epsilon self;
     theta_dummy := theta_dummy self; dummy_result := dr |}.

Definition user_matrix_tmp : string := "/tmp/user_matrix.npz".
Definition item_matrix_tmp : string := "/tmp/item_matrix.npz".

Section Scoring.
Variable cfg : Config.
(** [Gamma(concentration, rate).prob(x)] and [Poisson(rate).prob(beta)],
    evaluated in a tensorflow session. *)
Variable gamma_prob : Q -> Q -> Q -> Q.
Variable poisson_prob : list Q -> matrix -> matrix.

(** *** Loading *)

(** The comprehension over the package dictionary needs hashable values
    and the one over the manifest dictionary iterable values: a document of
    the other shape raises [TypeError] at its first item. *)
Definition load_jsons (self : HPFScoring) : res HPFScoring :=
  let package_id_dict_filename :=
    path_join (HPF_SCORING_REGION cfg) [HPF_output_package_id_dict cfg] in
  doc ← read_json_file (datastore self) package_id_dict_filename;
  pid ← match doc with
        | JsonPackages d => Ok d
        | JsonManifests [] => Ok []
        | JsonManifests (_ :: _) => Raise TypeError
        end;
  let idp := dict_comp (fun '(n, x) => (x, n)) pid in
  let manifest_id_dict_filename :=
    path_join (HPF_SCORING_REGION cfg) [HPF_output_manifest_id_dict cfg] in
  doc ← read_json_file (datastore self) manifest_id_dict_filename;
  raw ← match doc with
        | JsonManifests d => Ok d
        | JsonPackages [] => Ok []
        | JsonPackages (_ :: _) => Raise TypeError
        end;
  let mid :=
    dict_comp (fun '(n, x) => (n, (list_to_set x : gset Z))) raw in
  Ok (set_dicts self pid idp mid).

Definition load_s3 (self : HPFScoring) : io HPFScoring :=
  let theta_matrix_filename :=
    path_join (HPF_SCORING_REGION cfg) [HPF_output_user_matrix cfg] in
  _ ← download_file (datastore self) theta_matrix_filename user_matrix_tmp;
  sparse_matrix ← load_npz user_matrix_tmp;
  let self := set_theta self sparse_matrix in
  _ ← os_remove user_matrix_tmp;
  let beta_matrix_filename :=
    path_join (HPF_SCORING_REGION cfg) [HPF_output_item_matrix cfg] in
  _ ← download_file (datastore self) beta_matrix_filename item_matrix_tmp;
  sparse_matrix ← load_npz item_matrix_tmp;
  let self := set_beta self sparse_matrix in
  _ ← os_remove item_matrix_tmp;
  lift (load_jsons self).

Definition load_local (self : HPFScoring) : io HPFScoring :=
  let theta_matrix_filename :=
    path_join (src_dir (datastore self))
      [HPF_SCORING_REGION cfg; HPF_output_user_matrix cfg] in
  sparse_matrix ← load_npz theta_matrix_filename;
  let self := set_theta self sparse_matrix in
  let beta_matrix_filename :=
    path_join (src_dir (datastore self))
      [HPF_SCORING_REGION cfg; HPF_output_item_matrix cfg] in
  sparse_matrix ← load_npz beta_matrix_filename;
  let self := set_beta self sparse_matrix in
  lift (load_jsons self).

(** [theta_dummy], a Poisson distribution in the source, is kept as its
    rate vector; [dummy_result] is its density at [beta]. *)
Definition __init__ (ds : DataStore) : io HPFScoring :=
  let k := inject_Z (Z.of_nat (K cfg)) in
  let eps := gamma_prob (a_c cfg) (a_c cfg / b_c cfg)%Q k in
  let rate := replicate (K cfg) (eps * gamma_prob (a cfg) eps k)%Q in
  let self :=
    {| datastore := ds; package_id_dict := []; id_package_dict := [];
       beta := []; theta := []; manifest_id_dict := []; manifests := 0;
       packages := 0; epsilon := eps; theta_dummy := rate;
       dummy_result := [] |} in
  self ← match kind ds with
         | S3DataStore => load_s3 self
         | LocalDataStore => load_local self
         end;
  mret (set_derived self (length (theta self)) (length (beta self))
          (poisson_prob (theta_dummy self) (beta self))).

(** *** Matching, scoring, filtering *)

(** The [for ... else] loop of [match_manifest]: the key of the first item
    whose set equals the input set. *)
Fixpoint first_match (items : list (string * gset Z))
    (input_id_set : gset Z) : option string :=
  match items with
  | [] => None
  | (manifest_id, dependency_set) :: rest =>
      if bool_decide (dependency_set = input_id_set) then Some manifest_id
      else first_match rest input_id_set
  end.

Definition match_manifest (self : HPFScoring) (input_id_set : gset Z)
    : pyval :=
  match first_match (manifest_id_dict self) input_id_set with
  | Some manifest_id => PyStr manifest_id
  | None => PyInt (-1)
  end.

(** [array_len=None] stands for [self.packages]. *)
Definition normalize_result (self : HPFScoring) (result : matrix)
    (input_id_set : gset Z) (array_len : option nat) : res (list Q) :=
  let array_len := default (packages self) array_len in
  mapM_res (fun i : nat =>
              if bool_decide (Z.of_nat i ∈ input_id_set) then Ok (-1)%Q
              else row ← np_index result (Z.of_nat i); Ok (mean row))
           (seq 0 array_len).

Definition filter_recommendation (self : HPFScoring) (result : list Q)
    (max_count : Z) : res (list recommendation) :=
  let highest_indices := slice_from (- max_count) (argsort result) in
  mapM_res (fun package_id : nat =>
              score ← np_index result (Z.of_nat package_id);
              name ← dict_getitem (id_package_dict self) (Z.of_nat package_id);
              Ok {| cooccurrence_probability := (score * 100)%Q;
                    package_name := name;
                    topic_list := [] |})
           highest_indices.

Definition folding_in (self : HPFScoring) (input_id_set : gset Z)
    : res (list recommendation) :=
  manifest_id ← py_int (match_manifest self input_id_set);
  result ← (if manifest_id =? -1 then Ok (dummy_result self)
            else row ← np_index (theta self) manifest_id;
                 Ok (poisson_prob row (beta self)));
  normalised_result ← normalize_result self result input_id_set None;
  filter_recommendation self normalised_result (MAX_COMPANION_REC_COUNT cfg).

(** One turn of the loop of [predict] over the names of the stack. *)
Definition resolve
    (self : HPFScoring)
    (st : gset Z * gmap string (list string) * gset string)
    (package_name : string)
    : gset Z * gmap string (list string) * gset string :=
  let '(input_id_set, package_topic_dict, missing_packages) := st in
  let package_id := dict_get (package_id_dict self) package_name in
  if truthy package_id then
    ({[default 0 package_id]} ∪ input_id_set,
     <[package_name := []]> package_topic_dict,
     missing_packages)
  else
    (input_id_set, package_topic_dict, {[package_name]} ∪ missing_packages).

Definition predict (self : HPFScoring) (input_stack : list string)
    : res (list recommendation * gmap string (list string) * list string) :=
  let input_stack : gset string := list_to_set input_stack in
  let '(input_id_set, package_topic_dict, missing_packages) :=
    foldl (resolve self) (∅, ∅, ∅) (elements input_stack) in
  ratio ← py_div (size missing_packages) (size input_stack);
  companion_recommendation ←
    (if Qlt_bool ratio (UNKNOWN_PACKAGES_THRESHOLD cfg)
     then folding_in self input_id_set
     else Ok []);
  Ok (companion_recommendation, package_topic_dict,
      elements missing_packages).

End Scoring.

(** ** The scenario model of the specification

    Three packages [a→0, b→1, c→2], one manifest ["0" → {0, 1}], threshold
    one half.  [toy_poisson_prob] and [toy_gamma_prob] stand in for the
    tensorflow densities where a concrete score is needed; they keep the
    shape of [beta]. *)

Definition scenario_cfg : Config :=
  {| UNKNOWN_PACKAGES_THRESHOLD := (1 # 2)%Q;
     MAX_COMPANION_REC_COUNT := 5;
     HPF_SCORING_REGION := "maven";
     HPF_output_package_id_dict := "package_id_dict.json";
     HPF_output_manifest_id_dict := "manifest_id_dict.json";
     HPF_output_user_matrix := "user_matrix.npz";
     HPF_output_item_matrix := "item_matrix.npz";
     a := (3 # 10)%Q; a_c := (3 # 10)%Q; b_c := (3 # 10)%Q; K := 2 |}.

Definition toy_gamma_prob (concentration rate x : Q) : Q := (1 # 3)%Q.

Definition toy_poisson_prob (rate : list Q) (b : matrix) : matrix :=
  (fun row => zip_with Qmult rate row) <$> b.

Definition scenario_theta : matrix := [[(1 # 2)%Q; (1 # 4)%Q]].

Definition scenario_beta : matrix :=
  [[(1 # 2)%Q; (1 # 4)%Q]; [(1 # 3)%Q; (1 # 4)%Q]; [(1 # 5)%Q; (1 # 4)%Q]].

Definition scenario_store (k : store_kind) (theta_file : file) : DataStore :=
  {| kind := k;
     src_dir := "/srv/model";
     bucket := {[ "maven/user_matrix.npz" := theta_file;
                  "maven/item_matrix.npz" := Npz scenario_beta ]};
     documents :=
       {[ "maven/package_id_dict.json" :=
            JsonPackages [("a", 0); ("b", 1); ("c", 2)];
          "maven/manifest_id_dict.json" := JsonManifests [("0", [0; 1])] ]} |}.

(** The object [__init__] builds from the scenario store (see
    [scenario_model_loaded]). *)
Definition scenario_model : HPFScoring :=
  {| datastore := scenario_store S3DataStore (Npz scenario_theta);
     package_id_dict := [("a", 0); ("b", 1); ("c", 2)];
     id_package_dict := [(0, "a"); (1, "b"); (2, "c")];
     beta := scenario_beta;
     theta := scenario_theta;
     manifest_id_dict := [("0", {[0; 1]})];
     manifests := 1;
     packages := 3;
     epsilon := (1 # 3)%Q;
     theta_dummy := [(1 # 9)%Q; (1 # 9)%Q];
     dummy_result := toy_poisson_prob [(1 # 9)%Q; (1 # 9)%Q] scenario_beta |}.

(** ** Vocabulary of the statements *)

(** Two (index, score) pairs in ascending order of score. *)
Definition pair_le (p q : nat * Q) : Prop := (p.2 <= q.2)%Q.

(** Every index of a score vector of length [n] has a display name. *)
Definition names_cover (self : HPFScoring) (n : nat) : bool :=
  forallb (fun i : nat =>
             bool_decide (is_Some (dict_get (id_package_dict self) (Z.of_nat i))))
          (seq 0 n).

(** The entry built for the pair (index, score). *)
Definition entry_of (self : HPFScoring) (p : nat * Q) : recommendation :=
  {| cooccurrence_probability := (p.2 * 100)%Q;
     package_name := default "" (dict_get (id_package_dict self) (Z.of_nat p.1));
     topic_list := [] |}.

(** Index [i] does not score higher than index [j] in [result]. *)
Definition score_le (result : list Q) (i j : nat) : Prop :=
  exists x y : Q, result !! i = Some x /\ result !! j = Some y /\ (x <= y)%Q.

(** Two entries in ascending order of probability. *)
Definition rec_le (r1 r2 : recommendation) : Prop :=
  (cooccurrence_probability r1 <= cooccurrence_probability r2)%Q.

(** The object [self] with another manifest dictionary. *)
Definition with_manifests (self : HPFScoring)
    (mid : list (string * gset Z)) : HPFScoring :=
  set_dicts self (package_id_dict self) (id_package_dict self) mid.

(** The three collections the loop of [predict] leaves behind. *)
Definition resolve_all (self : HPFScoring) (input_stack : list string)
    : gset Z * gmap string (list string) * gset string :=
  foldl (resolve self) (∅, ∅, ∅)
    (elements (list_to_set input_stack : gset string)).

Definition input_ids (self : HPFScoring) (input_stack : list string) : gset Z :=
  (resolve_all self input_stack).1.1.

Definition missing_names (self : HPFScoring) (input_stack : list string)
    : gset string :=
  (resolve_all self input_stack).2.

(** [len(missing_packages) / len(input_stack)] on a non-empty stack. *)
Definition missing_ratio (self : HPFScoring) (input_stack : list string) : Q :=
  (inject_Z (Z.of_nat (size (missing_names self input_stack)))
   / inject_Z (Z.of_nat (size (list_to_set input_stack : gset string))))%Q.

(** No two names share an id. *)
Definition dict_injective (pid : list (string * Z)) : Prop :=
  forall n1 n2 x,
    dict_get pid n1 = Some x -> dict_get pid n2 = Some x -> n1 = n2.

(** [{x: n for n, x in pid.items()}]. *)
Definition invert (pid : list (string * Z)) : list (Z * string) :=
  dict_comp (fun '(n, x) => (x, n)) pid.

Definition package_id_dict_path (cfg : Config) : string :=
  path_join (HPF_SCORING_REGION cfg) [HPF_output_package_id_dict cfg].

Definition manifest_id_dict_path (cfg : Config) : string :=
  path_join (HPF_SCORING_REGION cfg) [HPF_output_manifest_id_dict cfg].

(** A store whose package dictionary gives the id [0] to two names. *)
Definition collision_store : DataStore :=
  {| kind := S3DataStore;
     src_dir := "";
     bucket := {[ "maven/user_matrix.npz" := Npz scenario_theta;
                  "maven/item_matrix.npz" := Npz scenario_beta ]};
     documents :=
       {[ "maven/package_id_dict.json" := JsonPackages [("a", 0); ("b", 0)];
          "maven/manifest_id_dict.json" := JsonManifests [("0", [0])] ]} |}.

(** The normalised score of index [i]. *)
Definition normalised_score (result : matrix) (input_id_set : gset Z)
    (i : nat) : Q :=
  if bool_decide (Z.of_nat i ∈ input_id_set) then (-1)%Q
  else mean (default [] (result !! i)).

(** Every manifest key reads as [-1] or as a row of [theta]. *)
Definition manifests_ok (self : HPFScoring) : bool :=
  forallb (fun kv : string * gset Z =>
             is_ok (manifest_id ← int_of_str kv.1;
                    if manifest_id =? -1 then Ok []
                    else np_index (theta self) manifest_id))
          (manifest_id_dict self).

(** The keys of the two matrices in the bucket. *)
Definition theta_matrix_key (cfg : Config) : string :=
  path_join (HPF_SCORING_REGION cfg) [HPF_output_user_matrix cfg].

Definition beta_matrix_key (cfg : Config) : string :=
  path_join (HPF_SCORING_REGION cfg) [HPF_output_item_matrix cfg].

(** The number of input ids among the package indices. *)
Definition excluded_count (self : HPFScoring) (input_id_set : gset Z) : nat :=
  length (filter (fun i : nat => Z.of_nat i ∈ input_id_set)
            (seq 0 (packages self))).

(** ** Vocabulary of the further properties *)

(** Two outcomes of [predict] that a caller cannot tell apart: the same
    exception, or the same recommendations and topics with the same missing
    names in some order. *)
Definition same_outcome
    (r1 r2 : res (list recommendation * gmap string (list string)
                  * list string)) : Prop :=
  match r1, r2 with
  | Ok (recs1, topics1, missing1), Ok (recs2, topics2, missing2) =>
      recs1 = recs2 /\ topics1 = topics2 /\ missing1 ≡ₚ missing2
  | Raise e1, Raise e2 => e1 = e2
  | _, _ => False
  end.

(** The indices [filter_recommendation] keeps. *)
Definition kept_indices (result : list Q) (max_count : Z) : list nat :=
  slice_from (- max_count) (argsort result).

(** The scenario configuration with room for one recommendation. *)
Definition scenario_cfg_top1 : Config :=
  {| UNKNOWN_PACKAGES_THRESHOLD := UNKNOWN_PACKAGES_THRESHOLD scenario_cfg;
     MAX_COMPANION_REC_COUNT := 1;
     HPF_SCORING_REGION := HPF_SCORING_REGION scenario_cfg;
     HPF_output_package_id_dict := HPF_output_package_id_dict scenario_cfg;
     HPF_output_manifest_id_dict := HPF_output_manifest_id_dict scenario_cfg;
     HPF_output_user_matrix := HPF_output_user_matrix scenario_cfg;
     HPF_output_item_matrix := HPF_output_item_matrix scenario_cfg;
     a := a scenario_cfg; a_c := a_c scenario_cfg; b_c := b_c scenario_cfg;
     K := K scenario_cfg |}.

(** The scenario model with two manifests of the same id-set, with a
    manifest under the key ["-1"], and with a manifest whose key is no row
    of theta. *)
Definition twin_manifest_model : HPFScoring :=
  with_manifests scenario_model [("7", {[2]}); ("0", {[0; 1]}); ("5", {[0; 1]})].

Definition minus_one_manifest_model : HPFScoring :=
  with_manifests scenario_model [("-1", {[1; 2]})].

(** The paths of the two matrices under the directory of a local store. *)
Definition local_theta_path (cfg : Config) (ds : DataStore) : string :=
  path_join (src_dir ds) [HPF_SCORING_REGION cfg; HPF_output_user_matrix cfg].

Definition local_beta_path (cfg : Config) (ds : DataStore) : string :=
  path_join (src_dir ds) [HPF_SCORING_REGION cfg; HPF_output_item_matrix cfg].

(** [set(x)] on the value of every item of the manifest document. *)
Definition manifest_sets (d : list (string * list Z))
    : list (string * gset Z) :=
  (fun kv => (kv.1, list_to_set kv.2)) <$> d.

(** The rate of the fallback distribution: [K] times the same product of
    two Gamma densities. *)
Definition fallback_rate (cfg : Config) (gamma_prob : Q -> Q -> Q -> Q)
    : list Q :=
  let k := inject_Z (Z.of_nat (K cfg)) in
  let eps := gamma_prob (a_c cfg) (a_c cfg / b_c cfg)%Q k in
  replicate (K cfg) (eps * gamma_prob (a cfg) eps k)%Q.

(** A local disk holding the two matrices of the scenario. *)
Definition scenario_disk : gmap string file :=
  {[ "/srv/model/maven/user_matrix.npz" := Npz scenario_theta;
     "/srv/model/maven/item_matrix.npz" := Npz scenario_beta ]}.

(** An object not yet loaded, over the store with the shared id. *)
Definition collision_object : HPFScoring :=
  {| datastore := collision_store; package_id_dict := [];
     id_package_dict := []; beta := []; theta := []; manifest_id_dict := [];
     manifests := 0; packages := 0; epsilon := 0%Q; theta_dummy := [];
     dummy_result := [] |}.

(** An object not yet loaded, over a store whose beta object does not
    decode. *)
Definition corrupt_beta_object : HPFScoring :=
  {| datastore :=
       {| kind := S3DataStore; src_dir := "";
          bucket := {[ "maven/user_matrix.npz" := Npz scenario_theta;
                       "maven/item_matrix.npz" := Corrupt ]};
          documents := documents collision_store |};
     package_id_dict := []; id_package_dict := []; beta := []; theta := [];
     manifest_id_dict := []; manifests := 0; packages := 0; epsilon := 0%Q;
     theta_dummy := []; dummy_result := [] |}.

(** Every row of beta is the id of a name of the package dictionary. *)
Definition ids_cover (self : HPFScoring) : bool :=
  forallb (fun i : nat =>
             bool_decide (Z.of_nat i ∈ (package_id_dict self).*2))
          (seq 0 (packages self)).

(** * Properties *)

Lemma scenario_model_loaded :
  run (__init__ scenario_cfg toy_gamma_prob toy_poisson_prob
         (scenario_store S3DataStore (Npz scenario_theta))) ∅
  = (∅, Ok scenario_model).
Proof. vm_compute. reflexivity. Qed.

(** ** Generic facts on the monad and the builtins *)

Lemma mapM_res_inv {A B} (f : A -> res B) (l : list A) (ys : list B) :
  mapM_res f l = Ok ys -> Forall2 (fun x y => f x = Ok y) l ys.
Proof.
  revert ys. induction l as [|x l IH]; intros ys H; simpl in H.
  - inversion H. constructor.
  - destruct (f x) as [y|e] eqn:Hx; simpl in H; [|discriminate].
    destruct (mapM_res f l) as [zs|e] eqn:Hl; simpl in H; [|discriminate].
    inversion H; subst. constructor; auto.
Qed.

Lemma mapM_res_total {A B} (f : A -> res B) (g : A -> B) (l : list A) :
  Forall (fun x => f x = Ok (g x)) l -> mapM_res f l = Ok (g <$> l).
Proof.
  induction 1 as [|x l Hx _ IH]; simpl; [reflexivity|].
  rewrite Hx, IH. reflexivity.
Qed.

Lemma mapM_res_length {A B} (f : A -> res B) (l : list A) (ys : list B) :
  mapM_res f l = Ok ys -> length ys = length l.
Proof.
  intros H. apply mapM_res_inv in H. symmetry. eapply Forall2_length, H.
Qed.

Lemma slice_from_length {A} (k : Z) (l : list A) :
  0 < k ->
  Z.of_nat (length (slice_from (- k) l)) = Z.min k (Z.of_nat (length l)).
Proof.
  intros Hk. unfold slice_from.
  destruct (Z.ltb_spec (- k) 0) as [_|?]; [|lia].
  rewrite length_drop. lia.
Qed.

Lemma slice_from_suffix {A} (k : Z) (l : list A) :
  slice_from k l `suffix_of` l.
Proof. unfold slice_from. apply suffix_drop. Qed.

Lemma np_index_lookup {A} (l : list A) (i : nat) (x : A) :
  l !! i = Some x -> np_index l (Z.of_nat i) = Ok x.
Proof.
  intros H. unfold np_index.
  pose proof (lookup_lt_Some _ _ _ H) as Hlt.
  destruct (Z.ltb_spec (Z.of_nat i) 0) as [?|_]; [lia|].
  destruct (Z.leb_spec 0 (Z.of_nat i)) as [_|?]; [|lia].
  destruct (Z.ltb_spec (Z.of_nat i) (Z.of_nat (length l))) as [_|?]; [|lia].
  simpl. rewrite Nat2Z.id, H. reflexivity.
Qed.

(** ** [argsort] is an ascending permutation of the indices *)

Lemma insert_pair_perm (p : nat * Q) (l : list (nat * Q)) :
  insert_pair p l ≡ₚ p :: l.
Proof.
  induction l as [|q l IH]; simpl; [reflexivity|].
  destruct (Qle_bool p.2 q.2); [reflexivity|].
  rewrite IH. apply perm_swap.
Qed.

Lemma sort_pairs_perm (l : list (nat * Q)) : sort_pairs l ≡ₚ l.
Proof.
  induction l as [|p l IH]; simpl; [reflexivity|].
  rewrite insert_pair_perm, IH. reflexivity.
Qed.

Lemma pair_le_trans (p q r : nat * Q) : pair_le p q -> pair_le q r -> pair_le p r.
Proof. unfold pair_le. apply Qle_trans. Qed.

Lemma insert_pair_sorted (p : nat * Q) (l : list (nat * Q)) :
  StronglySorted pair_le l -> StronglySorted pair_le (insert_pair p l).
Proof.
  induction 1 as [|q l Hl IH Hq]; simpl.
  - repeat constructor.
  - destruct (Qle_bool p.2 q.2) eqn:Hle.
    + apply Qle_bool_iff in Hle.
      constructor; [constructor; assumption|].
      constructor; [exact Hle|].
      eapply Forall_impl; [exact Hq|].
      intros r Hr. eapply pair_le_trans; [exact Hle|exact Hr].
    + assert (pair_le q p) as Hqp.
      { unfold pair_le. destruct (Qlt_le_dec q.2 p.2) as [Hlt|Hge].
        - apply Qlt_le_weak, Hlt.
        - apply Qle_bool_iff in Hge. congruence. }
      constructor; [exact IH|].
      rewrite insert_pair_perm. constructor; assumption.
Qed.

Lemma sort_pairs_sorted (l : list (nat * Q)) :
  StronglySorted pair_le (sort_pairs l).
Proof.
  induction l as [|p l IH]; simpl; [constructor|].
  apply insert_pair_sorted, IH.
Qed.

Lemma imap_pair_fst {A} (l : list A) (k : nat) :
  (imap (fun i x => (k + i, x)%nat) l).*1 = seq k (length l).
Proof.
  revert k. induction l as [|x l IH]; intros k; simpl; [reflexivity|].
  f_equal; [lia|].
  rewrite <- (IH (S k)). f_equal. apply imap_ext. intros i y _. simpl.
  f_equal. lia.
Qed.

Lemma argsort_perm (result : list Q) :
  argsort result ≡ₚ seq 0 (length result).
Proof.
  unfold argsort. rewrite sort_pairs_perm.
  rewrite <- (imap_pair_fst result 0). reflexivity.
Qed.

Lemma argsort_length (result : list Q) :
  length (argsort result) = length result.
Proof. rewrite argsort_perm. apply length_seq. Qed.

Lemma sort_pairs_lookup (result : list Q) (i : nat) (x : Q) :
  (i, x) ∈ sort_pairs (imap (fun i x => (i, x)) result) -> result !! i = Some x.
Proof.
  rewrite sort_pairs_perm. intros H.
  apply elem_of_lookup_imap_1 in H as (j & y & Heq & Hj).
  inversion Heq; subst. exact Hj.
Qed.

Lemma slice_from_fmap {A B} (f : A -> B) (k : Z) (l : list A) :
  slice_from k (f <$> l) = f <$> slice_from k l.
Proof. unfold slice_from. rewrite length_fmap, fmap_drop. reflexivity. Qed.

Lemma suffix_StronglySorted {A} (R : A -> A -> Prop) (l1 l2 : list A) :
  l1 `suffix_of` l2 -> StronglySorted R l2 -> StronglySorted R l1.
Proof.
  intros [k ->]. induction k as [|x k IH]; simpl; [auto|].
  intros H. inversion H; subst. auto.
Qed.

(** ** [filter_recommendation] *)

Lemma names_cover_lookup (self : HPFScoring) (n i : nat) :
  names_cover self n = true -> (i < n)%nat ->
  is_Some (dict_get (id_package_dict self) (Z.of_nat i)).
Proof.
  unfold names_cover. rewrite forallb_forall. intros H Hi.
  specialize (H i). rewrite bool_decide_eq_true in H. apply H.
  apply in_seq. lia.
Qed.

Lemma filter_recommendation_eq (self : HPFScoring) (result : list Q)
    (max_count : Z) :
  names_cover self (length result) = true ->
  filter_recommendation self result max_count
  = Ok (entry_of self <$>
          slice_from (- max_count)
            (sort_pairs (imap (fun i x => (i, x)) result))).
Proof.
  intros Hnames. unfold filter_recommendation, argsort.
  rewrite slice_from_fmap.
  set (top := slice_from _ _).
  assert (Forall (fun p => p ∈ sort_pairs (imap (fun i x => (i, x)) result)) top)
    as Htop.
  { apply Forall_forall. intros p Hp.
    destruct (slice_from_suffix (- max_count)
                (sort_pairs (imap (fun i x => (i, x)) result))) as [k Hk].
    rewrite Hk. apply elem_of_app. right. exact Hp. }
  clearbody top. induction Htop as [|[i x] top Hp _ IH]; [reflexivity|].
  apply sort_pairs_lookup in Hp.
  pose proof (lookup_lt_Some _ _ _ Hp) as Hlt.
  destruct (names_cover_lookup self _ _ Hnames Hlt) as [name Hname].
  cbn [fmap list_fmap mapM_res fst]. rewrite (np_index_lookup _ _ _ Hp).
  unfold dict_getitem. rewrite Hname. cbn [mbind res_bind].
  change (mapM_res _ (list_fmap _ _ fst top)) with
    (mapM_res (fun package_id : nat =>
       score ← np_index result (Z.of_nat package_id);
       name ← dict_getitem (id_package_dict self) (Z.of_nat package_id);
       Ok {| cooccurrence_probability := (score * 100)%Q;
             package_name := name; topic_list := [] |}) (top.*1)).
  unfold dict_getitem in IH. rewrite IH. cbn [mbind res_bind].
  unfold entry_of at 2. cbn [fst snd]. rewrite Hname. reflexivity.
Qed.

Lemma slice_from_last {A} (k : Z) (l : list A) :
  0 < k -> slice_from (- k) l = drop (length l - Z.to_nat k) l.
Proof.
  intros Hk. unfold slice_from.
  destruct (Z.ltb_spec (- k) 0) as [_|?]; [|lia].
  f_equal. lia.
Qed.

Lemma StronglySorted_with {A} (R : A -> A -> Prop) (P : A -> Prop) (l : list A) :
  StronglySorted R l -> Forall P l ->
  StronglySorted (fun x y => R x y /\ P x /\ P y) l.
Proof.
  induction 1 as [|x l Hl IH Hx]; intros HP; [constructor|].
  apply Forall_cons in HP as [Px HP].
  constructor; [auto|].
  rewrite Forall_forall in Hx, HP |- *. intros y Hy. auto.
Qed.

Lemma argsort_sorted (result : list Q) :
  StronglySorted (score_le result) (argsort result).
Proof.
  unfold argsort.
  eapply (StronglySorted_fmap fst
            (fun p q => pair_le p q /\ result !! p.1 = Some p.2
                        /\ result !! q.1 = Some q.2)).
  - intros [i x] [j y] (Hle & Hi & Hj). exists x, y. auto.
  - apply (StronglySorted_with pair_le (fun p => result !! p.1 = Some p.2)).
    + apply sort_pairs_sorted.
    + apply Forall_forall. intros [i x] Hp. apply sort_pairs_lookup, Hp.
Qed.

(** The exact number of entries, for a positive [max_count]. *)
Lemma filter_recommendation_length (self : HPFScoring) (result : list Q)
    (max_count : Z) (recs : list recommendation) :
  0 < max_count ->
  filter_recommendation self result max_count = Ok recs ->
  Z.of_nat (length recs) = Z.min max_count (Z.of_nat (length result)).
Proof.
  intros Hk H. apply mapM_res_length in H. rewrite H.
  rewrite slice_from_length by assumption. rewrite argsort_length. reflexivity.
Qed.

(** C7: for a positive [max_count] and a model that names every package,
    [filter_recommendation] applied to a score vector over [packages]
    packages returns a list of at most [max_count] entries and of at least
    [min (max_count, packages - |excluded|)] entries, whatever the set of
    excluded ids. *)
Theorem filter_recommendation_count_bounds (self : HPFScoring)
    (normalised_result : list Q) (excluded : gset Z) (max_count : Z) :
  0 < max_count ->
  length normalised_result = packages self ->
  names_cover self (packages self) = true ->
  exists recs : list recommendation,
    filter_recommendation self normalised_result max_count = Ok recs /\
    Z.of_nat (length recs) <= max_count /\
    Z.min max_count (Z.of_nat (packages self) - Z.of_nat (size excluded))
      <= Z.of_nat (length recs).
Proof.
  intros Hk Hlen Hnames.
  rewrite <- Hlen in Hnames.
  pose proof (filter_recommendation_eq self normalised_result max_count Hnames)
    as Heq.
  eexists. split; [exact Heq|].
  rewrite (filter_recommendation_length _ _ _ _ Hk Heq), Hlen. lia.
Qed.

(** C7 on the scenario model: three scores, one excluded id, room for two. *)
Lemma filter_recommendation_count_bounds_witness :
  exists recs : list recommendation,
    filter_recommendation scenario_model [(3 # 4)%Q; (-1)%Q; (1 # 4)%Q] 2
      = Ok recs /\
    Z.of_nat (length recs) <= 2 /\
    Z.min 2 (Z.of_nat (packages scenario_model)
             - Z.of_nat (size ({[1]} : gset Z)))
      <= Z.of_nat (length recs).
Proof.
  apply (filter_recommendation_count_bounds scenario_model
           [(3 # 4)%Q; (-1)%Q; (1 # 4)%Q] {[1]} 2);
    [lia|reflexivity|reflexivity].
Defined.

(** [max_count] has to be positive for the upper bound: [-0] is [0], and
    the slice [[0:len(result)]] is the whole list. *)
Lemma filter_recommendation_max_count_zero :
  exists recs : list recommendation,
    filter_recommendation scenario_model [(3 # 4)%Q; (-1)%Q; (1 # 4)%Q] 0
      = Ok recs /\
    length recs = 3%nat.
Proof. eexists. split; vm_compute; reflexivity. Qed.

(** C8: the indices are sorted in ascending order of score and the last
    [max_count] of them are kept, in that order; the entry of a kept index
    carries the name the id→name mapping gives it, an empty topic list and
    one hundred times its score, so the returned list runs from the lowest
    to the highest of the kept scores. *)
Theorem filter_recommendation_ascending_top (self : HPFScoring)
    (result : list Q) (max_count : Z) :
  0 < max_count ->
  names_cover self (length result) = true ->
  exists recs : list recommendation,
    filter_recommendation self result max_count = Ok recs /\
    argsort result ≡ₚ seq 0 (length result) /\
    StronglySorted (score_le result) (argsort result) /\
    Forall2 (fun (package_id : nat) (r : recommendation) =>
               exists score : Q,
                 result !! package_id = Some score /\
                 cooccurrence_probability r = (score * 100)%Q /\
                 dict_get (id_package_dict self) (Z.of_nat package_id)
                   = Some (package_name r) /\
                 topic_list r = [])
            (drop (length result - Z.to_nat max_count) (argsort result)) recs /\
    StronglySorted rec_le recs.
Proof.
  intros Hk Hnames.
  pose proof (filter_recommendation_eq self result max_count Hnames) as Heq.
  eexists. split; [exact Heq|].
  split; [apply argsort_perm|]. split; [apply argsort_sorted|].
  set (sorted := sort_pairs (imap (fun i x => (i, x)) result)).
  assert (slice_from (- max_count) sorted `suffix_of` sorted) as Hsuf
    by apply slice_from_suffix.
  split.
  - rewrite <- (argsort_length result), <- slice_from_last by assumption.
    unfold argsort. fold sorted. rewrite slice_from_fmap.
    apply Forall2_fmap, Forall_Forall2_diag, Forall_forall.
    intros [i x] Hp.
    assert ((i, x) ∈ sorted) as Hin.
    { destruct Hsuf as [k Hk']. rewrite Hk'. apply elem_of_app. auto. }
    apply sort_pairs_lookup in Hin.
    pose proof (lookup_lt_Some _ _ _ Hin) as Hlt.
    destruct (names_cover_lookup self _ _ Hnames Hlt) as [name Hname].
    exists x. simpl. rewrite Hname. auto.
  - apply (StronglySorted_fmap (entry_of self) pair_le).
    + intros p q Hle. unfold rec_le, pair_le in *. simpl.
      apply Qmult_le_compat_r; [exact Hle|discriminate].
    + eapply suffix_StronglySorted; [exact Hsuf|]. apply sort_pairs_sorted.
Qed.

(** C8 on the scenario model: the two best of three scores, lowest first. *)
Lemma filter_recommendation_ascending_top_witness :
  exists recs : list recommendation,
    filter_recommendation scenario_model [(3 # 4)%Q; (-1)%Q; (1 # 4)%Q] 2
      = Ok recs /\
    StronglySorted rec_le recs /\
    argsort [(3 # 4)%Q; (-1)%Q; (1 # 4)%Q] = [1; 2; 0]%nat.
Proof.
  destruct (filter_recommendation_ascending_top scenario_model
              [(3 # 4)%Q; (-1)%Q; (1 # 4)%Q] 2 eq_refl eq_refl)
    as (recs & Hrecs & _ & _ & _ & Hsorted).
  exists recs. split; [exact Hrecs|]. split; [exact Hsorted|reflexivity].
Defined.

(** ** [match_manifest] *)

Lemma first_match_Some (items : list (string * gset Z)) (s : gset Z)
    (manifest_id : string) :
  first_match items s = Some manifest_id -> (manifest_id, s) ∈ items.
Proof.
  induction items as [|[k d] items IH]; simpl; [discriminate|].
  case_bool_decide as Heq.
  - intros [= <-]. subst d. apply list_elem_of_here.
  - intros H. apply list_elem_of_further, IH, H.
Qed.

Lemma first_match_None (items : list (string * gset Z)) (s : gset Z) :
  first_match items s = None <->
  forall manifest_id dependency_set,
    (manifest_id, dependency_set) ∈ items -> dependency_set ≠ s.
Proof.
  induction items as [|[k d] items IH]; simpl.
  - split; [|reflexivity]. intros _ k d H. inversion H.
  - case_bool_decide as Heq.
    + split; [discriminate|]. intros H. exfalso.
      apply (H k d); [apply list_elem_of_here|exact Heq].
    + rewrite IH. split.
      * intros H k' d' Hin. apply elem_of_cons in Hin as [[= -> ->]|Hin];
          [exact Heq|]. eapply H, Hin.
      * intros H k' d' Hin. eapply H, list_elem_of_further, Hin.
Qed.

(** C5: [match_manifest] returns the key of a manifest only when the id-set
    of that manifest equals the input set, and returns the integer [-1]
    exactly when no manifest has an id-set equal to the input set; a model
    whose only pattern is [{1, 2}] matches neither [{1, 2, 3}] nor [{1}],
    and does match [{1, 2}]. *)
Theorem match_manifest_exact_set_equality (self : HPFScoring)
    (input_id_set : gset Z) :
  (forall manifest_id : string,
     match_manifest self input_id_set = PyStr manifest_id ->
     (manifest_id, input_id_set) ∈ manifest_id_dict self) /\
  (forall z : Z, match_manifest self input_id_set = PyInt z -> z = -1) /\
  (match_manifest self input_id_set = PyInt (-1) <->
   forall manifest_id dependency_set,
     (manifest_id, dependency_set) ∈ manifest_id_dict self ->
     dependency_set ≠ input_id_set) /\
  (forall key : string,
     match_manifest (with_manifests self [(key, {[1; 2]})]) {[1; 2; 3]}
       = PyInt (-1) /\
     match_manifest (with_manifests self [(key, {[1; 2]})]) {[1]}
       = PyInt (-1) /\
     match_manifest (with_manifests self [(key, {[1; 2]})]) {[2; 1]}
       = PyStr key).
Proof.
  unfold match_manifest. split; [|split; [|split]].
  - intros k H.
    destruct (first_match _ _) as [k'|] eqn:Hm; [|discriminate].
    inversion H; subst. apply first_match_Some, Hm.
  - intros z H.
    destruct (first_match _ _) as [k'|] eqn:Hm; [discriminate|].
    inversion H. reflexivity.
  - rewrite <- first_match_None.
    destruct (first_match _ _) as [k'|]; split; try discriminate; reflexivity.
  - intros key. simpl. split; [|split].
    + rewrite bool_decide_eq_false_2; [reflexivity|].
      intros Heq. assert (3 ∈ ({[1; 2]} : gset Z)) as Hin
        by (rewrite Heq; set_solver).
      set_solver.
    + rewrite bool_decide_eq_false_2; [reflexivity|].
      intros Heq. assert (2 ∈ ({[1]} : gset Z)) as Hin
        by (rewrite <- Heq; set_solver).
      set_solver.
    + rewrite bool_decide_eq_true_2; [reflexivity|].
      apply set_eq. set_solver.
Qed.

(** C5 at the scenario model: the stored pattern is found for its own id-set
    and nothing is found for a superset. *)
Lemma match_manifest_exact_set_equality_witness :
  match_manifest scenario_model {[0; 1]} = PyStr "0" /\
  ("0", {[0; 1]}) ∈ manifest_id_dict scenario_model /\
  match_manifest scenario_model {[0; 1; 2]} = PyInt (-1) /\
  (forall manifest_id dependency_set,
     (manifest_id, dependency_set) ∈ manifest_id_dict scenario_model ->
     dependency_set ≠ {[0; 1; 2]}).
Proof.
  assert (match_manifest scenario_model {[0; 1]} = PyStr "0") as H1
    by (vm_compute; reflexivity).
  assert (match_manifest scenario_model {[0; 1; 2]} = PyInt (-1)) as H2
    by (vm_compute; reflexivity).
  split; [exact H1|]. split.
  - exact (proj1 (match_manifest_exact_set_equality scenario_model {[0; 1]})
             "0" H1).
  - split; [exact H2|].
    exact (proj1 (proj1 (proj2 (proj2
             (match_manifest_exact_set_equality scenario_model {[0; 1; 2]}))))
             H2).
Defined.

(** ** [predict] *)

Lemma resolve_fold (self : HPFScoring) (l : list string)
    (ids0 : gset Z) (t0 : gmap string (list string)) (m0 : gset string) :
  forall ids t m,
    foldl (resolve self) (ids0, t0, m0) l = (ids, t, m) ->
    (forall id, id ∈ ids <->
       id ∈ ids0 \/
       exists n, n ∈ l /\ dict_get (package_id_dict self) n = Some id /\ id ≠ 0)
    /\
    (forall n, n ∈ m <->
       n ∈ m0 \/ (n ∈ l /\ truthy (dict_get (package_id_dict self) n) = false)).
Proof.
  revert ids0 t0 m0. induction l as [|x l IH]; intros ids0 t0 m0 ids t m H.
  - simpl in H. inversion H; subst. split; intros y; split; auto.
    + intros [?|(n & Hn & _)]; [assumption|inversion Hn].
    + intros [?|[Hn _]]; [assumption|inversion Hn].
  - simpl in H.
    destruct (dict_get (package_id_dict self) x) as [z|] eqn:Hx; simpl in H.
    + destruct (Z.eqb_spec z 0) as [->|Hz]; simpl in H;
        apply IH in H as [Hids Hm]; split; intros y;
        rewrite ?Hids, ?Hm; clear Hids Hm.
      * split.
        -- intros [?|(n & Hn & Hg & Hne)]; [auto|].
           right. exists n. rewrite elem_of_cons. auto.
        -- intros [?|(n & Hn & Hg & Hne)]; [auto|].
           apply elem_of_cons in Hn as [->|Hn]; [congruence|].
           right. exists n. auto.
      * rewrite elem_of_union, elem_of_singleton. split.
        -- intros [[->|?]|[Hn Ht]]; [|auto|].
           ++ right. rewrite elem_of_cons, Hx. auto.
           ++ right. rewrite elem_of_cons. auto.
        -- intros [?|[Hn Ht]]; [auto|].
           apply elem_of_cons in Hn as [->|Hn]; auto.
      * rewrite elem_of_union, elem_of_singleton. split.
        -- intros [[->|?]|(n & Hn & Hg & Hne)]; [|auto|].
           ++ right. exists x. rewrite elem_of_cons. auto.
           ++ right. exists n. rewrite elem_of_cons. auto.
        -- intros [?|(n & Hn & Hg & Hne)]; [auto|].
           apply elem_of_cons in Hn as [->|Hn].
           ++ left. left. congruence.
           ++ right. exists n. auto.
      * split.
        -- intros [?|[Hn Ht]]; [auto|]. right. rewrite elem_of_cons. auto.
        -- intros [?|[Hn Ht]]; [auto|].
           apply elem_of_cons in Hn as [->|Hn]; [|auto].
           rewrite Hx in Ht. simpl in Ht.
           destruct (Z.eqb_spec z 0); [contradiction|discriminate].
    + apply IH in H as [Hids Hm]; split; intros y;
        rewrite ?Hids, ?Hm; clear Hids Hm.
      * split.
        -- intros [?|(n & Hn & Hg & Hne)]; [auto|].
           right. exists n. rewrite elem_of_cons. auto.
        -- intros [?|(n & Hn & Hg & Hne)]; [auto|].
           apply elem_of_cons in Hn as [->|Hn]; [congruence|].
           right. exists n. auto.
      * rewrite elem_of_union, elem_of_singleton. split.
        -- intros [[->|?]|[Hn Ht]]; [|auto|].
           ++ right. rewrite elem_of_cons, Hx. auto.
           ++ right. rewrite elem_of_cons. auto.
        -- intros [?|[Hn Ht]]; [auto|].
           apply elem_of_cons in Hn as [->|Hn]; auto.
Qed.

Lemma resolve_all_eta (self : HPFScoring) (input_stack : list string) :
  exists t,
    resolve_all self input_stack
    = (input_ids self input_stack, t, missing_names self input_stack).
Proof.
  unfold input_ids, missing_names.
  destruct (resolve_all self input_stack) as [[ids t] m]. eauto.
Qed.

Lemma elem_of_stack (input_stack : list string) (n : string) :
  n ∈ elements (list_to_set input_stack : gset string) <-> n ∈ input_stack.
Proof. rewrite elem_of_elements, elem_of_list_to_set. reflexivity. Qed.

(** The ids the loop collects: those of the names of the stack that the
    dictionary maps to an id other than [0]. *)
Lemma input_ids_spec (self : HPFScoring) (input_stack : list string) (id : Z) :
  id ∈ input_ids self input_stack <->
  exists n, n ∈ input_stack /\
            dict_get (package_id_dict self) n = Some id /\ id ≠ 0.
Proof.
  destruct (resolve_all_eta self input_stack) as [t Heq].
  apply resolve_fold in Heq as [Hids _]. rewrite Hids. split.
  - intros [H|(n & Hn & H)]; [apply elem_of_empty in H as []|].
    exists n. rewrite <- elem_of_stack. auto.
  - intros (n & Hn & H). right. exists n. rewrite elem_of_stack. auto.
Qed.

(** The names the loop reports missing: those with no id, or with id [0]. *)
Lemma missing_names_spec (self : HPFScoring) (input_stack : list string)
    (n : string) :
  n ∈ missing_names self input_stack <->
  n ∈ input_stack /\ truthy (dict_get (package_id_dict self) n) = false.
Proof.
  destruct (resolve_all_eta self input_stack) as [t Heq].
  apply resolve_fold in Heq as [_ Hm]. rewrite Hm, elem_of_stack. split.
  - intros [H|H]; [apply elem_of_empty in H as []|exact H].
  - auto.
Qed.

Section PredictFacts.
Variable cfg : Config.
Variable poisson_prob : list Q -> matrix -> matrix.

Lemma predict_unfold (self : HPFScoring) (input_stack : list string) :
  predict cfg poisson_prob self input_stack
  = (let '(input_id_set, package_topic_dict, missing_packages) :=
       resolve_all self input_stack in
     ratio ← py_div (size missing_packages)
               (size (list_to_set input_stack : gset string));
     companion_recommendation ←
       (if Qlt_bool ratio (UNKNOWN_PACKAGES_THRESHOLD cfg)
        then folding_in cfg poisson_prob self input_id_set
        else Ok []);
     Ok (companion_recommendation, package_topic_dict,
         elements missing_packages)).
Proof. reflexivity. Qed.

Lemma py_div_nonempty (self : HPFScoring) (input_stack : list string) :
  input_stack ≠ [] ->
  py_div (size (missing_names self input_stack))
    (size (list_to_set input_stack : gset string))
  = Ok (missing_ratio self input_stack).
Proof.
  intros Hne. unfold missing_ratio, py_div.
  destruct (size (list_to_set input_stack : gset string)) eqn:Hsz;
    [|reflexivity].
  apply size_empty_inv in Hsz.
  destruct input_stack as [|x l]; [contradiction|].
  exfalso. apply (not_elem_of_empty (C:=gset string) x).
  rewrite <- (Hsz x). apply elem_of_list_to_set, list_elem_of_here.
Qed.

(** Below the threshold the recommendations are those of [folding_in] on
    the collected ids; at or above it the list is empty and no exception
    is raised.  The missing names are the same in both cases. *)
Lemma predict_nonempty (self : HPFScoring) (input_stack : list string) :
  input_stack ≠ [] ->
  exists topics : gmap string (list string),
    predict cfg poisson_prob self input_stack
    = (if Qlt_bool (missing_ratio self input_stack)
            (UNKNOWN_PACKAGES_THRESHOLD cfg)
       then recs ← folding_in cfg poisson_prob self
                     (input_ids self input_stack);
            Ok (recs, topics, elements (missing_names self input_stack))
       else Ok ([], topics, elements (missing_names self input_stack))).
Proof.
  intros Hne. rewrite predict_unfold.
  pose proof (py_div_nonempty self input_stack Hne) as Hdiv.
  destruct (resolve_all_eta self input_stack) as [t Heq]. rewrite Heq.
  exists t. rewrite Hdiv. cbn [mbind res_bind].
  destruct (Qlt_bool _ _); reflexivity.
Qed.

Lemma predict_threshold_breach (self : HPFScoring)
    (input_stack : list string) :
  input_stack ≠ [] ->
  (UNKNOWN_PACKAGES_THRESHOLD cfg <= missing_ratio self input_stack)%Q ->
  exists topics : gmap string (list string),
    predict cfg poisson_prob self input_stack
    = Ok ([], topics, elements (missing_names self input_stack)).
Proof.
  intros Hne Hge.
  destruct (predict_nonempty self input_stack Hne) as [t Hp].
  exists t. rewrite Hp. unfold Qlt_bool.
  apply Qle_bool_iff in Hge. rewrite Hge. reflexivity.
Qed.

Lemma predict_empty (self : HPFScoring) :
  predict cfg poisson_prob self [] = Raise ZeroDivisionError.
Proof. reflexivity. Qed.

End PredictFacts.

(** ** The scenarios of the specification, run on the code *)

(** C1: on the scenario model, [predict(["a", "b"])] does not reach the
    manifest: the id [0] of package [a] is false as a condition, so [a] is
    reported missing, the ratio one half is not below the threshold, and the
    call returns no recommendation and [missing_packages == ["a"]]. *)
Theorem scenario_a_b_reports_a_missing
    (poisson_prob : list Q -> matrix -> matrix) :
  dict_get (package_id_dict scenario_model) "a" = Some 0 /\
  input_ids scenario_model ["a"; "b"] = {[1]} /\
  match_manifest scenario_model (input_ids scenario_model ["a"; "b"])
    = PyInt (-1) /\
  predict scenario_cfg poisson_prob scenario_model ["a"; "b"]
    = Ok ([], {["b" := []]}, ["a"]).
Proof. repeat split; vm_compute; reflexivity. Qed.

(** The scenario of C1 with the ids handed to [folding_in] directly: the
    manifest ["0"] matches, and the three packages come back, the two input
    packages first with the score [-100]. *)
Lemma scenario_folding_in_matched :
  match_manifest scenario_model {[0; 1]} = PyStr "0" /\
  folding_in scenario_cfg toy_poisson_prob scenario_model {[0; 1]}
  = Ok [ {| cooccurrence_probability := (-1 * 100)%Q;
            package_name := "a"; topic_list := [] |};
         {| cooccurrence_probability := (-1 * 100)%Q;
            package_name := "b"; topic_list := [] |};
         {| cooccurrence_probability :=
              (mean [((1 # 2) * (1 # 5))%Q; ((1 # 4) * (1 # 4))%Q] * 100)%Q;
            package_name := "c"; topic_list := [] |} ].
Proof. split; vm_compute; reflexivity. Qed.

(** C2 fails as stated: the empty stack reaches the division, which raises
    [ZeroDivisionError]. *)
Lemma predict_empty_divides_by_zero :
  predict scenario_cfg toy_poisson_prob scenario_model []
  = Raise ZeroDivisionError.
Proof. apply predict_empty. Qed.

(** C2, amended: for the empty input stack [predict] fails with an exception
    and returns no result, whatever the model and the configuration. *)
Theorem predict_empty_fails (cfg : Config)
    (poisson_prob : list Q -> matrix -> matrix) (self : HPFScoring) :
  exists e : exn, predict cfg poisson_prob self [] = Raise e.
Proof. exists ZeroDivisionError. apply predict_empty. Qed.

(** C3: on the scenario model, [predict(["b", "c"])] resolves the ids [1]
    and [2], gives both the score [-1] and still returns them: with three
    packages and room for five entries the filter keeps every index. *)
Theorem scenario_b_c_recommends_inputs :
  input_ids scenario_model ["b"; "c"] = {[1; 2]} /\
  normalize_result scenario_model (dummy_result scenario_model) {[1; 2]} None
    = Ok [(mean [(1 # 18)%Q; (1 # 36)%Q]); (-1)%Q; (-1)%Q] /\
  predict scenario_cfg toy_poisson_prob scenario_model ["b"; "c"]
    = Ok ([ {| cooccurrence_probability := (-1 * 100)%Q;
               package_name := "b"; topic_list := [] |};
            {| cooccurrence_probability := (-1 * 100)%Q;
               package_name := "c"; topic_list := [] |};
            {| cooccurrence_probability :=
                 (mean [(1 # 18)%Q; (1 # 36)%Q] * 100)%Q;
               package_name := "a"; topic_list := [] |} ],
          {["b" := []; "c" := []]}, []).
Proof. repeat split; vm_compute; reflexivity. Qed.

(** C4: on the scenario model, [predict(["a", "z"])] returns no
    recommendation and raises nothing, but the missing list holds [a], a
    package of the model, next to the unknown [z]; the ratio is one, not
    one half. *)
Theorem scenario_a_z_reports_a_missing
    (poisson_prob : list Q -> matrix -> matrix) :
  dict_get (package_id_dict scenario_model) "a" = Some 0 /\
  dict_get (package_id_dict scenario_model) "z" = None /\
  (missing_ratio scenario_model ["a"; "z"] == 1)%Q /\
  exists missing_packages : list string,
    predict scenario_cfg poisson_prob scenario_model ["a"; "z"]
      = Ok ([], ∅, missing_packages) /\
    missing_packages ≡ₚ ["a"; "z"].
Proof.
  split; [reflexivity|]. split; [reflexivity|]. split; [reflexivity|].
  exists ["a"; "z"]. split; [vm_compute; reflexivity|reflexivity].
Qed.

(** ** Dictionaries: lookups after [dict_set] and after a comprehension *)

Section PyDictFacts.
Context {K V : Type} `{EqDecision K}.
Implicit Types (d : list (K * V)) (k : K) (v : V).

Lemma dict_get_elem d k v : dict_get d k = Some v -> (k, v) ∈ d.
Proof.
  induction d as [|[k' v'] d IH]; simpl; [discriminate|].
  case_decide as Hk.
  - intros [= ->]. subst. apply list_elem_of_here.
  - intros H. apply list_elem_of_further, IH, H.
Qed.

Lemma dict_get_None d k : dict_get d k = None <-> k ∉ d.*1.
Proof.
  induction d as [|[k' v'] d IH]; simpl.
  - split; [intros _ H; inversion H|reflexivity].
  - rewrite not_elem_of_cons. case_decide as Hk.
    + split; [discriminate|]. intros [Hne _]. congruence.
    + rewrite IH. split; [auto|]. intros [_ H]. exact H.
Qed.

Lemma dict_get_wf d k v : dict_wf d -> (k, v) ∈ d -> dict_get d k = Some v.
Proof.
  unfold dict_wf. induction d as [|[k' v'] d IH]; simpl; intros Hnd Hin.
  - inversion Hin.
  - apply NoDup_cons in Hnd as [Hk' Hnd].
    apply elem_of_cons in Hin as [[= -> ->]|Hin].
    + rewrite decide_True by reflexivity. reflexivity.
    + case_decide as Hk; [|auto]. subst k'. exfalso. apply Hk'.
      apply (list_elem_of_fmap_2 fst _ (k, v)), Hin.
Qed.

Lemma dict_get_is_Some d k v : (k, v) ∈ d -> is_Some (dict_get d k).
Proof.
  intros Hin. destruct (dict_get d k) eqn:Hg; [eauto|].
  apply dict_get_None in Hg. exfalso. apply Hg.
  apply (list_elem_of_fmap_2 fst _ (k, v)), Hin.
Qed.

Lemma dict_get_app d1 d2 k :
  dict_get (d1 ++ d2) k
  = match dict_get d1 k with Some v => Some v | None => dict_get d2 k end.
Proof.
  induction d1 as [|[k' v'] d1 IH]; simpl; [reflexivity|].
  case_decide; [reflexivity|exact IH].
Qed.

Lemma dict_get_set d k v k' :
  dict_get (dict_set d k v) k'
  = if decide (k = k') then Some v else dict_get d k'.
Proof.
  induction d as [|[k0 v0] d IH]; simpl.
  - reflexivity.
  - destruct (decide (k0 = k)) as [->|Hne]; simpl.
    + destruct (decide (k = k')); reflexivity.
    + destruct (decide (k0 = k')) as [->|Hne'].
      * rewrite decide_False by congruence. reflexivity.
      * exact IH.
Qed.

Lemma dict_set_keys d k v :
  (dict_set d k v).*1 = if decide (k ∈ d.*1) then d.*1 else (d.*1 ++ [k])%list.
Proof.
  induction d as [|[k0 v0] d IH].
  - destruct (decide (k ∈ ([] : list (K * V)).*1)) as [Hin|_];
      [inversion Hin|reflexivity].
  - cbn [dict_set]. destruct (decide (k0 = k)) as [->|Hne].
    + destruct (decide (k ∈ ((k, v0) :: d).*1)) as [_|Hnin]; [reflexivity|].
      exfalso. apply Hnin. apply list_elem_of_here.
    + change (((k0, v0) :: dict_set d k v).*1)
        with (k0 :: (dict_set d k v).*1).
      rewrite IH. change (((k0, v0) :: d).*1) with (k0 :: d.*1).
      destruct (decide (k ∈ d.*1)) as [Hin|Hnin];
        destruct (decide (k ∈ k0 :: d.*1)) as [Hin'|Hnin'];
        try reflexivity.
      * exfalso. apply Hnin'. apply list_elem_of_further, Hin.
      * exfalso. apply elem_of_cons in Hin' as [?|?]; congruence.
Qed.

Lemma dict_set_wf d k v : dict_wf d -> dict_wf (dict_set d k v).
Proof.
  unfold dict_wf. intros Hnd. rewrite dict_set_keys.
  case_decide as Hin; [exact Hnd|].
  apply NoDup_app. split; [exact Hnd|]. split.
  - intros x Hx Hx'. apply list_elem_of_singleton in Hx'. congruence.
  - apply NoDup_singleton.
Qed.

Lemma dict_fold_wf (l : list (K * V)) d :
  dict_wf d -> dict_wf (foldl (fun d kv => dict_set d kv.1 kv.2) d l).
Proof.
  revert d. induction l as [|[k v] l IH]; intros d Hd; simpl; [exact Hd|].
  apply IH, dict_set_wf, Hd.
Qed.

(** A dictionary read from a list of items has unique keys. *)
Lemma dict_of_items_wf (l : list (K * V)) : dict_wf (dict_of_items l).
Proof. apply dict_fold_wf. apply NoDup_nil_2. Qed.

Lemma dict_fold_get (l : list (K * V)) d k :
  dict_get (foldl (fun d kv => dict_set d kv.1 kv.2) d l) k
  = match dict_get (reverse l) k with
    | Some v => Some v
    | None => dict_get d k
    end.
Proof.
  revert d. induction l as [|[k0 v0] l IH]; intros d; simpl; [reflexivity|].
  rewrite IH, reverse_cons, dict_get_app, dict_get_set. simpl.
  destruct (dict_get (reverse l) k); [reflexivity|].
  destruct (decide (k0 = k)); reflexivity.
Qed.

(** The last item written for a key is the one a lookup finds. *)
Lemma dict_of_items_get (l : list (K * V)) k :
  dict_get (dict_of_items l) k = dict_get (reverse l) k.
Proof.
  unfold dict_of_items. rewrite dict_fold_get.
  destruct (dict_get (reverse l) k); reflexivity.
Qed.
End PyDictFacts.

(** ** [load_jsons]: the id→name dictionary *)

Lemma invert_elem (pid : list (string * Z)) (x : Z) (n : string) :
  (x, n) ∈ reverse ((fun '(n, x) => (x, n)) <$> pid) <-> (n, x) ∈ pid.
Proof.
  rewrite elem_of_reverse, list_elem_of_fmap. split.
  - intros ([n' x'] & [= -> ->] & Hin). exact Hin.
  - intros Hin. exists (n, x). auto.
Qed.

(** Every entry of the inverse comes from an entry of the dictionary. *)
Lemma invert_sound (pid : list (string * Z)) (x : Z) (n : string) :
  dict_wf pid -> dict_get (invert pid) x = Some n -> dict_get pid n = Some x.
Proof.
  intros Hwf H. unfold invert, dict_comp in H.
  rewrite dict_of_items_get in H.
  apply dict_get_elem, invert_elem in H. apply dict_get_wf; assumption.
Qed.

(** When no two names share an id, every entry has its inverse entry. *)
Lemma invert_complete (pid : list (string * Z)) (n : string) (x : Z) :
  dict_wf pid -> dict_injective pid ->
  dict_get pid n = Some x -> dict_get (invert pid) x = Some n.
Proof.
  intros Hwf Hinj H.
  destruct (dict_get_is_Some (reverse ((fun '(n, x) => (x, n)) <$> pid)) x n)
    as [n' Hn'].
  { apply invert_elem, dict_get_elem, H. }
  assert (dict_get (invert pid) x = Some n') as Hinv.
  { unfold invert, dict_comp. rewrite dict_of_items_get. exact Hn'. }
  rewrite Hinv. f_equal. eapply Hinj; [|exact H].
  apply invert_sound; assumption.
Qed.

(** With both documents in the store, [load_jsons] returns, and the three
    dictionaries are those of the documents. *)
Lemma load_jsons_ok (cfg : Config) (self : HPFScoring)
    (package_items : list (string * Z))
    (manifest_items : list (string * list Z)) :
  documents (datastore self) !! package_id_dict_path cfg
    = Some (JsonPackages package_items) ->
  documents (datastore self) !! manifest_id_dict_path cfg
    = Some (JsonManifests manifest_items) ->
  load_jsons cfg self
  = Ok (set_dicts self (dict_of_items package_items)
          (invert (dict_of_items package_items))
          (dict_comp (fun '(n, x) => (n, (list_to_set x : gset Z)))
             (dict_of_items manifest_items))).
Proof.
  intros Hp Hm. unfold load_jsons, read_json_file.
  fold (package_id_dict_path cfg). fold (manifest_id_dict_path cfg).
  rewrite Hp, Hm. reflexivity.
Qed.

(** C6 fails as stated: a dictionary that is not injective loads without
    any error; the name written last keeps the id and the round trip of
    the other name does not come back to it. *)
Lemma non_injective_dictionary_loads :
  exists self : HPFScoring,
    run (__init__ scenario_cfg toy_gamma_prob toy_poisson_prob collision_store)
      ∅ = (∅, Ok self) /\
    dict_get (package_id_dict self) "a" = Some 0 /\
    dict_get (package_id_dict self) "b" = Some 0 /\
    dict_get (id_package_dict self) 0 = Some "b".
Proof. eexists. repeat split; vm_compute; reflexivity. Qed.

(** C6, amended: with both documents in the store [load_jsons] returns a
    model, whether or not the name→id dictionary is injective; every entry
    id→name of [id_package_dict] has its entry name→id in
    [package_id_dict]; and when the name→id dictionary is injective,
    [id_package_dict] is exactly its inverse, so that name → id → name is
    the identity on every loaded name. *)
Theorem load_jsons_inverse (cfg : Config) (self : HPFScoring)
    (package_items : list (string * Z))
    (manifest_items : list (string * list Z)) :
  documents (datastore self) !! package_id_dict_path cfg
    = Some (JsonPackages package_items) ->
  documents (datastore self) !! manifest_id_dict_path cfg
    = Some (JsonManifests manifest_items) ->
  exists self' : HPFScoring,
    load_jsons cfg self = Ok self' /\
    package_id_dict self' = dict_of_items package_items /\
    (forall x n,
       dict_get (id_package_dict self') x = Some n ->
       dict_get (package_id_dict self') n = Some x) /\
    (dict_injective (package_id_dict self') ->
     forall n x,
       dict_get (package_id_dict self') n = Some x <->
       dict_get (id_package_dict self') x = Some n).
Proof.
  intros Hp Hm. eexists. split; [apply (load_jsons_ok _ _ _ _ Hp Hm)|].
  simpl. split; [reflexivity|].
  pose proof (dict_of_items_wf package_items) as Hwf. split.
  - intros x n. apply invert_sound, Hwf.
  - intros Hinj n x. split.
    + apply invert_complete; assumption.
    + apply invert_sound, Hwf.
Qed.

Lemma scenario_dict_injective :
  dict_injective (dict_of_items [("a", 0); ("b", 1); ("c", 2)]).
Proof.
  assert (dict_of_items [("a", 0); ("b", 1); ("c", 2)]
          = [("a", 0); ("b", 1); ("c", 2)]) as -> by reflexivity.
  intros n1 n2 x H1 H2. apply dict_get_elem in H1, H2.
  repeat (apply elem_of_cons in H1 as [H1|H1]);
    repeat (apply elem_of_cons in H2 as [H2|H2]);
    try (apply elem_of_nil in H1 as []); try (apply elem_of_nil in H2 as []);
    congruence.
Qed.

(** C6 on the documents of the scenario store: the round trip of [c]. *)
Lemma load_jsons_inverse_witness :
  exists self' : HPFScoring,
    load_jsons scenario_cfg scenario_model = Ok self' /\
    dict_get (package_id_dict self') "c" = Some 2 /\
    dict_get (id_package_dict self') 2 = Some "c".
Proof.
  destruct (load_jsons_inverse scenario_cfg scenario_model
              [("a", 0); ("b", 1); ("c", 2)] [("0", [0; 1])]
              eq_refl eq_refl) as (self' & Hload & Hpid & _ & Hinv).
  exists self'. split; [exact Hload|].
  assert (dict_get (package_id_dict self') "c" = Some 2) as Hc
    by (rewrite Hpid; reflexivity).
  split; [exact Hc|].
  apply Hinv; [|exact Hc]. rewrite Hpid. exact scenario_dict_injective.
Defined.

(** ** [normalize_result] and [folding_in] *)

Lemma normalize_result_eq (self : HPFScoring) (result : matrix)
    (input_id_set : gset Z) :
  (packages self <= length result)%nat ->
  normalize_result self result input_id_set None
  = Ok (normalised_score result input_id_set <$> seq 0 (packages self)).
Proof.
  intros Hlen. unfold normalize_result. simpl.
  apply mapM_res_total, Forall_forall. intros i Hi.
  apply elem_of_seq in Hi. unfold normalised_score.
  case_bool_decide; [reflexivity|].
  destruct (lookup_lt_is_Some_2 result i) as [row Hrow]; [lia|].
  rewrite (np_index_lookup _ _ _ Hrow), Hrow. reflexivity.
Qed.

(** The sentinel goes to the input ids and the row mean to the others. *)
Lemma normalize_result_scores (self : HPFScoring) (result : matrix)
    (input_id_set : gset Z) (normalised : list Q) (i : nat) :
  normalize_result self result input_id_set None = Ok normalised ->
  (i < packages self)%nat ->
  (Z.of_nat i ∈ input_id_set -> normalised !! i = Some (-1)%Q) /\
  (Z.of_nat i ∉ input_id_set ->
   exists row, result !! i = Some row /\ normalised !! i = Some (mean row)).
Proof.
  intros H Hi. unfold normalize_result in H. simpl in H.
  apply mapM_res_inv in H.
  assert (seq 0 (packages self) !! i = Some i) as Hseq
    by (apply lookup_seq; lia).
  destruct (Forall2_lookup_l _ _ _ _ _ H Hseq) as (y & Hy & Hf).
  rewrite Hy. case_bool_decide as Hin.
  - inversion Hf; subst. split; [reflexivity|contradiction].
  - split; [contradiction|]. intros _.
    unfold np_index in Hf.
    destruct (Z.ltb_spec (Z.of_nat i) 0); [lia|].
    destruct ((0 <=? Z.of_nat i) && (Z.of_nat i <? Z.of_nat (length result)));
      [|discriminate].
    rewrite Nat2Z.id in Hf.
    destruct (result !! i) as [row|]; [|discriminate].
    simpl in Hf. inversion Hf; subst. eauto.
Qed.

Section FoldingFacts.
Variable cfg : Config.
Variable gamma_prob : Q -> Q -> Q -> Q.
Variable poisson_prob : list Q -> matrix -> matrix.

(** What the constructor derives after loading. *)
Lemma init_derived (ds : DataStore) (fs fs' : gmap string file)
    (self : HPFScoring) :
  run (__init__ cfg gamma_prob poisson_prob ds) fs = (fs', Ok self) ->
  manifests self = length (theta self) /\
  packages self = length (beta self) /\
  dummy_result self = poisson_prob (theta_dummy self) (beta self).
Proof.
  unfold __init__, mbind, io_bind, mret, io_ret. cbn [run].
  destruct (run _ fs) as [fs1 [self1|e]]; intros [= <- <-].
  repeat split; reflexivity.
Qed.

Lemma folding_in_no_match (self : HPFScoring) (input_id_set : gset Z) :
  match_manifest self input_id_set = PyInt (-1) ->
  folding_in cfg poisson_prob self input_id_set
  = (normalised_result ←
       normalize_result self (dummy_result self) input_id_set None;
     filter_recommendation self normalised_result
       (MAX_COMPANION_REC_COUNT cfg)).
Proof. intros H. unfold folding_in. rewrite H. reflexivity. Qed.

Lemma scores_then_filter (self : HPFScoring) (result : matrix)
    (input_id_set : gset Z) :
  length result = packages self ->
  names_cover self (packages self) = true ->
  exists normalised recs,
    normalize_result self result input_id_set None = Ok normalised /\
    filter_recommendation self normalised (MAX_COMPANION_REC_COUNT cfg)
      = Ok recs.
Proof.
  intros Hlen Hnames.
  eexists. eexists. split; [apply normalize_result_eq; lia|].
  apply filter_recommendation_eq.
  rewrite length_fmap, length_seq. exact Hnames.
Qed.

End FoldingFacts.

Lemma manifests_ok_match (self : HPFScoring) (input_id_set : gset Z)
    (manifest_id : string) :
  manifests_ok self = true ->
  first_match (manifest_id_dict self) input_id_set = Some manifest_id ->
  exists z : Z,
    int_of_str manifest_id = Ok z /\
    (z = -1 \/ exists row, z ≠ -1 /\ np_index (theta self) z = Ok row).
Proof.
  unfold manifests_ok. rewrite forallb_forall. intros Hok Hm.
  apply first_match_Some in Hm. apply list_elem_of_In in Hm.
  specialize (Hok _ Hm). simpl in Hok.
  destruct (int_of_str manifest_id) as [z|e].
  - exists z. split; [reflexivity|]. cbn [mbind res_bind] in Hok.
    destruct (Z.eqb_spec z (-1)) as [Heq|Hne]; [left; exact Heq|].
    destruct (np_index (theta self) z) as [row|e].
    + right. exists row. auto.
    + simpl in Hok. discriminate.
  - simpl in Hok. discriminate.
Qed.

Lemma toy_poisson_prob_rows (rate : list Q) (b : matrix) :
  length (toy_poisson_prob rate b) = length b.
Proof. apply length_fmap. Qed.

(** ** [load_s3]: the staging files *)

(** One staging round: download to [tmp], decode, remove. *)
Lemma stage_decode_remove (ds : DataStore) (key tmp : string) (m : matrix)
    (fs : gmap string file) {A} (k : matrix -> io A) :
  bucket ds !! key = Some (Npz m) ->
  run (_ ← download_file ds key tmp;
       sparse_matrix ← load_npz tmp;
       _ ← os_remove tmp;
       k sparse_matrix) fs
  = run (k m) (delete tmp fs).
Proof.
  intros Hkey. unfold mbind, io_bind, download_file, load_npz, os_remove.
  cbn [run]. rewrite Hkey. cbn [run]. rewrite lookup_insert_eq.
  cbn [run]. rewrite lookup_insert_eq, delete_insert_eq. reflexivity.
Qed.

(** C10 fails as stated: when the theta file does not decode, the load
    stops with the error and the staging file stays on the disk. *)
Lemma corrupt_theta_leaves_staging_file :
  exists fs' : gmap string file,
    run (__init__ scenario_cfg toy_gamma_prob toy_poisson_prob
           (scenario_store S3DataStore Corrupt)) ∅
      = (fs', Raise ValueError) /\
    fs' !! user_matrix_tmp = Some Corrupt.
Proof. eexists. split; vm_compute; reflexivity. Qed.

(** C10, amended: on every S3 load in which both matrices are downloaded and
    decoded, each staging file is removed after its decoding: when
    [load_s3] hands over to [load_jsons], neither [/tmp/user_matrix.npz] nor
    [/tmp/item_matrix.npz] is on the disk, and no other path has changed. *)
Theorem load_s3_removes_staging_files (cfg : Config) (self : HPFScoring)
    (fs : gmap string file) (theta_m beta_m : matrix) :
  bucket (datastore self) !! theta_matrix_key cfg = Some (Npz theta_m) ->
  bucket (datastore self) !! beta_matrix_key cfg = Some (Npz beta_m) ->
  exists fs' : gmap string file,
    run (load_s3 cfg self) fs
      = (fs', load_jsons cfg (set_beta (set_theta self theta_m) beta_m)) /\
    fs' !! user_matrix_tmp = None /\
    fs' !! item_matrix_tmp = None /\
    forall path : string,
      path ≠ user_matrix_tmp -> path ≠ item_matrix_tmp ->
      fs' !! path = fs !! path.
Proof.
  intros Hth Hbe.
  exists (delete item_matrix_tmp (delete user_matrix_tmp fs)).
  split; [|split; [|split]].
  - unfold load_s3. fold (theta_matrix_key cfg). fold (beta_matrix_key cfg).
    rewrite (stage_decode_remove (datastore self) _ _ theta_m
               _ (fun m => _ ← download_file _ _ _; _) Hth).
    rewrite (stage_decode_remove (datastore self) _ _ beta_m
               _ (fun m => lift (load_jsons cfg (set_beta _ m))) Hbe).
    reflexivity.
  - rewrite lookup_delete_ne by discriminate. apply lookup_delete_eq.
  - apply lookup_delete_eq.
  - intros path H1 H2. rewrite !lookup_delete_ne by congruence. reflexivity.
Qed.

(** C10 on the scenario store, starting from a disk that already holds an
    unrelated file. *)
Lemma load_s3_removes_staging_files_witness :
  exists fs' : gmap string file,
    run (load_s3 scenario_cfg scenario_model) {[ "/etc/hosts" := Corrupt ]}
      = (fs', load_jsons scenario_cfg
                (set_beta (set_theta scenario_model scenario_theta)
                   scenario_beta)) /\
    fs' !! user_matrix_tmp = None /\
    fs' !! item_matrix_tmp = None /\
    fs' !! "/etc/hosts" = Some Corrupt.
Proof.
  destruct (load_s3_removes_staging_files scenario_cfg scenario_model
              {[ "/etc/hosts" := Corrupt ]} scenario_theta scenario_beta
              eq_refl eq_refl) as (fs' & Hrun & Hu & Hi & Hother).
  exists fs'. repeat split; try assumption.
  rewrite Hother by discriminate. reflexivity.
Defined.

(** ** When the exclusion of the input packages does hold

    The filter keeps the last [max_count] indices whatever their score.  The
    input ids stay out of the list as soon as the raw scores are above the
    sentinel and at least [max_count] packages are not in the input. *)

Lemma filter_all {A} (P : A -> Prop) `{forall x, Decision (P x)} (l : list A) :
  Forall P l -> filter P l = l.
Proof.
  induction 1 as [|x l Hx _ IH]; [reflexivity|].
  rewrite filter_cons_True by assumption. rewrite IH. reflexivity.
Qed.

Lemma filter_elem_length {A} (P : A -> Prop) `{forall x, Decision (P x)}
    (l : list A) (x : A) :
  x ∈ l -> P x -> (1 <= length (filter P l))%nat.
Proof.
  intros Hin HP. assert (x ∈ filter P l) as Hf
    by (apply list_elem_of_filter; auto).
  destruct (filter P l); [inversion Hf|simpl; lia].
Qed.

Lemma filter_recommendation_excludes_input (self : HPFScoring)
    (result : matrix) (input_id_set : gset Z) (normalised : list Q)
    (max_count : Z) :
  normalize_result self result input_id_set None = Ok normalised ->
  Forall (fun row => (-1 < mean row)%Q) result ->
  0 < max_count ->
  max_count + Z.of_nat (excluded_count self input_id_set)
    <= Z.of_nat (packages self) ->
  Forall (fun i : nat => Z.of_nat i ∉ input_id_set)
    (slice_from (- max_count) (argsort normalised)).
Proof.
  intros Hnorm Hpos Hk Hroom.
  assert (length normalised = packages self) as Hlen.
  { unfold normalize_result in Hnorm. apply mapM_res_length in Hnorm.
    rewrite Hnorm. apply length_seq. }
  rewrite slice_from_last by assumption.
  set (P := fun i : nat => Z.of_nat i ∈ input_id_set).
  set (sorted := argsort normalised).
  set (cut := (length sorted - Z.to_nat max_count)%nat).
  assert (length sorted = packages self) as Hslen
    by (unfold sorted; rewrite argsort_length; exact Hlen).
  assert (sorted ≡ₚ seq 0 (packages self)) as Hperm
    by (unfold sorted; rewrite argsort_perm, Hlen; reflexivity).
  assert (StronglySorted (score_le normalised) (take cut sorted ++ drop cut sorted))
    as Hsorted by (rewrite take_drop; apply argsort_sorted).
  apply Forall_forall. intros j Hj Hjin.
  assert (Forall P (take cut sorted)) as Hpre.
  { apply Forall_forall. intros i Hi.
    destruct (StronglySorted_app_1_elem_of _ _ _ _ _ Hsorted Hi Hj)
      as (x & y & Hx & Hy & Hle).
    pose proof (lookup_lt_Some _ _ _ Hx) as Hilt. rewrite Hlen in Hilt.
    pose proof (lookup_lt_Some _ _ _ Hy) as Hjlt. rewrite Hlen in Hjlt.
    destruct (normalize_result_scores self result input_id_set normalised j
                Hnorm Hjlt) as [Hjs _].
    rewrite (Hjs Hjin) in Hy. inversion Hy; subst y.
    destruct (decide (P i)) as [HP|HnP]; [exact HP|]. exfalso.
    destruct (normalize_result_scores self result input_id_set normalised i
                Hnorm Hilt) as [_ His].
    destruct (His HnP) as (row & Hrow & Hmean).
    rewrite Hmean in Hx. inversion Hx; subst x.
    rewrite Forall_forall in Hpos.
    apply (Qlt_not_le _ _ (Hpos row (list_elem_of_lookup_2 _ _ _ Hrow))), Hle. }
  assert (length (filter P sorted) = excluded_count self input_id_set) as Hcount
    by (unfold excluded_count; rewrite Hperm; reflexivity).
  rewrite <- (take_drop cut sorted), filter_app, length_app in Hcount.
  rewrite (filter_all P _ Hpre) in Hcount.
  pose proof (filter_elem_length P _ j Hj Hjin) as Hone.
  rewrite length_take in Hcount. subst cut. lia.
Qed.

(** * Further properties of the code *)

(** ** [predict]: what the loop collects *)

Lemma truthy_false (o : option Z) :
  truthy o = false <-> o = None \/ o = Some 0.
Proof.
  destruct o as [z|]; simpl.
  - destruct (Z.eqb_spec z 0) as [->|Hz]; simpl.
    + split; auto.
    + split; [discriminate|]. intros [H|[= H]]; [discriminate|contradiction].
  - split; auto.
Qed.

Lemma resolve_fold_topics (self : HPFScoring) (l : list string)
    (ids0 : gset Z) (t0 : gmap string (list string)) (m0 : gset string) :
  forall ids t m,
    foldl (resolve self) (ids0, t0, m0) l = (ids, t, m) ->
    forall n,
      t !! n = if bool_decide (n ∈ l)
                  && truthy (dict_get (package_id_dict self) n)
               then Some [] else t0 !! n.
Proof.
  revert ids0 t0 m0. induction l as [|x l IH]; intros ids0 t0 m0 ids t m H n.
  - simpl in H. inversion H; subst.
    rewrite bool_decide_eq_false_2 by (intros Hn; inversion Hn). reflexivity.
  - simpl in H.
    destruct (truthy (dict_get (package_id_dict self) x)) eqn:Hx;
      apply IH with (n := n) in H; rewrite H; clear H.
    + destruct (decide (n = x)) as [->|Hne].
      * rewrite Hx, (bool_decide_eq_true_2 (x ∈ x :: l))
          by apply list_elem_of_here.
        rewrite lookup_insert_eq. simpl.
        destruct (bool_decide (x ∈ l)); reflexivity.
      * rewrite lookup_insert_ne by congruence.
        rewrite (bool_decide_ext (n ∈ x :: l) (n ∈ l)); [reflexivity|].
        rewrite elem_of_cons. split; [intros [?|?]; [contradiction|auto]|auto].
    + destruct (decide (n = x)) as [->|Hne].
      * rewrite Hx, !andb_false_r. reflexivity.
      * rewrite (bool_decide_ext (n ∈ x :: l) (n ∈ l)); [reflexivity|].
        rewrite elem_of_cons. split; [intros [?|?]; [contradiction|auto]|auto].
Qed.

Lemma predict_ok_nonempty (cfg : Config)
    (poisson_prob : list Q -> matrix -> matrix) (self : HPFScoring)
    (input_stack : list string) r :
  predict cfg poisson_prob self input_stack = Ok r -> input_stack ≠ [].
Proof. intros H ->. rewrite predict_empty in H. discriminate. Qed.

Lemma predict_ok_parts (cfg : Config)
    (poisson_prob : list Q -> matrix -> matrix) (self : HPFScoring)
    (input_stack : list string) recs topics missing :
  predict cfg poisson_prob self input_stack = Ok (recs, topics, missing) ->
  resolve_all self input_stack
    = (input_ids self input_stack, topics, missing_names self input_stack) /\
  missing = elements (missing_names self input_stack) /\
  (recs = [] \/
   folding_in cfg poisson_prob self (input_ids self input_stack) = Ok recs).
Proof.
  intros H. pose proof (predict_ok_nonempty _ _ _ _ _ H) as Hne.
  rewrite predict_unfold in H.
  destruct (resolve_all_eta self input_stack) as [t Heq]. rewrite Heq in H.
  rewrite (py_div_nonempty self input_stack Hne) in H.
  cbn [mbind res_bind] in H.
  destruct (Qlt_bool _ _).
  - destruct (folding_in _ _ _ _) as [rs|e]; [|discriminate].
    cbn [mbind res_bind] in H. inversion H; subst. rewrite Heq. auto.
  - cbn [mbind res_bind] in H. inversion H; subst. rewrite Heq. auto.
Qed.

(** X1: when [predict] returns, the missing list has no duplicates and
    holds exactly the names of the stack to which the dictionary gives no
    id, or the id [0]. *)
Theorem predict_missing_packages (cfg : Config)
    (poisson_prob : list Q -> matrix -> matrix) (self : HPFScoring)
    (input_stack : list string) (recs : list recommendation)
    (topics : gmap string (list string)) (missing : list string) :
  predict cfg poisson_prob self input_stack = Ok (recs, topics, missing) ->
  NoDup missing /\
  forall n : string,
    n ∈ missing <->
    n ∈ input_stack /\
    (dict_get (package_id_dict self) n = None \/
     dict_get (package_id_dict self) n = Some 0).
Proof.
  intros H. apply predict_ok_parts in H as (_ & -> & _). split.
  - apply NoDup_elements.
  - intros n. rewrite elem_of_elements, missing_names_spec, truthy_false.
    reflexivity.
Qed.

(** X1 on the scenario model: [z] is unknown, [a] has the id [0]. *)
Lemma predict_missing_packages_witness :
  NoDup ["a"; "z"] /\
  ("a" ∈ ["a"; "z"] <->
   "a" ∈ ["a"; "z"; "a"] /\
   (dict_get (package_id_dict scenario_model) "a" = None \/
    dict_get (package_id_dict scenario_model) "a" = Some 0)).
Proof.
  destruct (predict_missing_packages scenario_cfg toy_poisson_prob
              scenario_model ["a"; "z"; "a"] [] ∅ ["a"; "z"])
    as [Hnd Hin]; [vm_compute; reflexivity|].
  split; [exact Hnd|exact (Hin "a")].
Defined.

(** X2: when [predict] returns, the topic dictionary maps exactly the names
    of the stack that have a non-zero id, each to the empty list; a name of
    the stack is a key of it or is in the missing list, never both. *)
Theorem predict_topic_dict (cfg : Config)
    (poisson_prob : list Q -> matrix -> matrix) (self : HPFScoring)
    (input_stack : list string) (recs : list recommendation)
    (topics : gmap string (list string)) (missing : list string) :
  predict cfg poisson_prob self input_stack = Ok (recs, topics, missing) ->
  (forall (n : string) (l : list string),
     topics !! n = Some l <->
     l = [] /\ n ∈ input_stack /\
     exists id, dict_get (package_id_dict self) n = Some id /\ id ≠ 0) /\
  (forall n : string,
     n ∈ input_stack -> (is_Some (topics !! n) <-> n ∉ missing)).
Proof.
  intros H. apply predict_ok_parts in H as (Hres & -> & _).
  assert (forall n, topics !! n
            = if bool_decide (n ∈ input_stack)
                 && truthy (dict_get (package_id_dict self) n)
              then Some [] else None) as Ht.
  { intros n. unfold resolve_all in Hres.
    rewrite (resolve_fold_topics _ _ _ _ _ _ _ _ Hres n), lookup_empty.
    rewrite (bool_decide_ext _ (n ∈ input_stack)) by apply elem_of_stack.
    reflexivity. }
  assert (forall n, truthy (dict_get (package_id_dict self) n) = true <->
            exists id, dict_get (package_id_dict self) n = Some id /\ id ≠ 0)
    as Htr.
  { intros n. destruct (dict_get (package_id_dict self) n) as [z|]; simpl.
    - destruct (Z.eqb_spec z 0) as [->|Hz]; simpl; split.
      + discriminate.
      + intros (id & [= <-] & Hid). contradiction.
      + eauto.
      + reflexivity.
    - split; [discriminate|]. intros (id & Hid & _). discriminate. }
  split.
  - intros n l. rewrite Ht, <- Htr. case_bool_decide as Hin; simpl.
    + destruct (truthy _); split.
      * intros [= <-]. auto.
      * intros (-> & _). reflexivity.
      * discriminate.
      * intros (_ & _ & ?). discriminate.
    + split; [discriminate|]. intros (_ & ? & _). contradiction.
  - intros n Hin. rewrite elem_of_elements, missing_names_spec, Ht.
    rewrite bool_decide_eq_true_2 by exact Hin. simpl.
    destruct (truthy _); split.
    + intros _ [_ ?]. discriminate.
    + eauto.
    + intros [? ?]. discriminate.
    + intros Hn. exfalso. apply Hn. auto.
Qed.

(** X2 on the scenario model: [b] is a key, [a] and [z] are not. *)
Lemma predict_topic_dict_witness :
  (({["b" := []]} : gmap string (list string)) !! "b" = Some [] <->
   [] = ([] : list string) /\ "b" ∈ ["a"; "b"; "z"] /\
   exists id, dict_get (package_id_dict scenario_model) "b" = Some id /\ id ≠ 0).
Proof.
  destruct (predict_topic_dict scenario_cfg toy_poisson_prob scenario_model
              ["a"; "b"; "z"] [] {["b" := []]} ["a"; "z"])
    as [Hkeys _]; [vm_compute; reflexivity|].
  exact (Hkeys "b" []).
Defined.

(** ** [predict]: the threshold, duplicates, exceptions and the count *)

Lemma resolve_all_dict (self self' : HPFScoring) (input_stack : list string) :
  package_id_dict self' = package_id_dict self ->
  resolve_all self' input_stack = resolve_all self input_stack.
Proof.
  intros Hd. unfold resolve_all.
  generalize (∅ : gset Z, ∅ : gmap string (list string), ∅ : gset string).
  induction (elements (list_to_set input_stack : gset string)) as [|x l IH];
    intros st; simpl; [reflexivity|].
  rewrite IH. f_equal. unfold resolve. rewrite Hd. reflexivity.
Qed.

Lemma stack_set_ext (s1 s2 : list string) :
  (forall n, n ∈ s1 <-> n ∈ s2) ->
  (list_to_set s1 : gset string) = list_to_set s2.
Proof.
  intros H. apply set_eq. intros n. rewrite !elem_of_list_to_set. apply H.
Qed.

Lemma same_outcome_refl r : same_outcome r r.
Proof. destruct r as [[[recs topics] missing]|e]; simpl; auto. Qed.

Lemma folding_in_inv (cfg : Config)
    (poisson_prob : list Q -> matrix -> matrix) (self : HPFScoring)
    (input_id_set : gset Z) (recs : list recommendation) :
  folding_in cfg poisson_prob self input_id_set = Ok recs ->
  exists (result : matrix) (normalised : list Q),
    normalize_result self result input_id_set None = Ok normalised /\
    filter_recommendation self normalised (MAX_COMPANION_REC_COUNT cfg)
      = Ok recs /\
    (result = dummy_result self \/
     exists z row, np_index (theta self) z = Ok row /\
                   result = poisson_prob row (beta self)).
Proof.
  unfold folding_in. intros H.
  destruct (py_int _) as [z|e]; [|discriminate]. cbn [mbind res_bind] in H.
  destruct (z =? -1).
  - cbn [mbind res_bind] in H.
    destruct (normalize_result _ _ _ _) as [nr|e] eqn:Hn; [|discriminate].
    cbn [mbind res_bind] in H. eauto 10.
  - destruct (np_index (theta self) z) as [row|e] eqn:Hrow; [|discriminate].
    cbn [mbind res_bind] in H.
    destruct (normalize_result _ _ _ _) as [nr|e] eqn:Hn; [|discriminate].
    cbn [mbind res_bind] in H. eauto 10.
Qed.

Lemma normalize_result_length (self : HPFScoring) (result : matrix)
    (input_id_set : gset Z) (normalised : list Q) :
  normalize_result self result input_id_set None = Ok normalised ->
  length normalised = packages self.
Proof.
  unfold normalize_result. intros H. apply mapM_res_length in H.
  rewrite H. apply length_seq.
Qed.

Lemma folding_in_returns (cfg : Config)
    (poisson_prob : list Q -> matrix -> matrix) (self : HPFScoring)
    (input_id_set : gset Z) :
  length (dummy_result self) = packages self ->
  (forall row, length (poisson_prob row (beta self)) = packages self) ->
  names_cover self (packages self) = true ->
  manifests_ok self = true ->
  exists recs, folding_in cfg poisson_prob self input_id_set = Ok recs.
Proof.
  intros Hd Hshape Hnames Hman.
  destruct (scores_then_filter cfg self (dummy_result self) input_id_set
              Hd Hnames) as (nd & rd & Hnd & Hrd).
  unfold folding_in, match_manifest.
  destruct (first_match (manifest_id_dict self) input_id_set) as [k|] eqn:Hm.
  - destruct (manifests_ok_match self input_id_set k Hman Hm)
      as (z & Hz & [->|(row & Hne & Hrow)]).
    + exists rd. cbn [py_int]. rewrite Hz. cbn [mbind res_bind].
      change (-1 =? -1) with true. cbn [mbind res_bind].
      rewrite Hnd. exact Hrd.
    + destruct (scores_then_filter cfg self _ input_id_set (Hshape row) Hnames)
        as (nr & rr & Hnr & Hrr).
      exists rr. cbn [py_int]. rewrite Hz. cbn [mbind res_bind].
      apply Z.eqb_neq in Hne. rewrite Hne, Hrow. cbn [mbind res_bind].
      rewrite Hnr. exact Hrr.
  - exists rd. cbn [py_int mbind res_bind].
    change (-1 =? -1) with true. cbn [mbind res_bind].
    rewrite Hnd. exact Hrd.
Qed.

(** X3: on a non-empty stack whose missing ratio is not below the
    threshold, [predict] returns no recommendation and raises nothing, and
    its outcome depends on the package dictionary only: the matrices, the
    manifests and the densities are not consulted. *)
Theorem predict_at_threshold_ignores_model (cfg : Config)
    (poisson_prob : list Q -> matrix -> matrix) (self : HPFScoring)
    (input_stack : list string) :
  input_stack ≠ [] ->
  (UNKNOWN_PACKAGES_THRESHOLD cfg <= missing_ratio self input_stack)%Q ->
  (exists topics : gmap string (list string),
     predict cfg poisson_prob self input_stack
       = Ok ([], topics, elements (missing_names self input_stack))) /\
  forall (poisson_prob' : list Q -> matrix -> matrix) (self' : HPFScoring),
    package_id_dict self' = package_id_dict self ->
    predict cfg poisson_prob' self' input_stack
      = predict cfg poisson_prob self input_stack.
Proof.
  intros Hne Hge. split; [apply predict_threshold_breach; assumption|].
  intros pp' self' Hd.
  assert (missing_names self' input_stack = missing_names self input_stack)
    as Hm by (unfold missing_names; rewrite (resolve_all_dict _ _ _ Hd);
              reflexivity).
  destruct (predict_threshold_breach cfg poisson_prob self input_stack Hne Hge)
    as [t Ht].
  destruct (predict_threshold_breach cfg pp' self' input_stack Hne)
    as [t' Ht'].
  { unfold missing_ratio. rewrite Hm. exact Hge. }
  rewrite Ht, Ht', Hm. do 3 f_equal.
  apply predict_ok_parts in Ht as (Hr & _), Ht' as (Hr' & _).
  rewrite (resolve_all_dict _ _ _ Hd), Hr in Hr'. congruence.
Qed.

(** X3 on the scenario model: [z] alone is above the threshold. *)
Lemma predict_at_threshold_ignores_model_witness :
  exists topics : gmap string (list string),
    predict scenario_cfg toy_poisson_prob scenario_model ["z"]
      = Ok ([], topics, elements (missing_names scenario_model ["z"])).
Proof.
  apply (predict_at_threshold_ignores_model scenario_cfg toy_poisson_prob
           scenario_model ["z"]); [discriminate|vm_compute; discriminate].
Defined.

(** X4: the order of the stack and the repetition of a name in it do not
    count: two stacks with the same names have the same outcome, and in
    particular the same missing ratio. *)
Theorem predict_stack_as_set (cfg : Config)
    (poisson_prob : list Q -> matrix -> matrix) (self : HPFScoring)
    (stack1 stack2 : list string) :
  (forall n : string, n ∈ stack1 <-> n ∈ stack2) ->
  same_outcome (predict cfg poisson_prob self stack1)
               (predict cfg poisson_prob self stack2) /\
  (missing_ratio self stack1 == missing_ratio self stack2)%Q.
Proof.
  intros H. apply stack_set_ext in H.
  assert (resolve_all self stack1 = resolve_all self stack2) as Hr
    by (unfold resolve_all; rewrite H; reflexivity).
  split.
  - rewrite !predict_unfold, Hr, H. apply same_outcome_refl.
  - unfold missing_ratio, missing_names. rewrite Hr, H. reflexivity.
Qed.

(** X4 on the scenario model: [z] twice weighs as [z] once. *)
Lemma predict_stack_as_set_witness :
  same_outcome
    (predict scenario_cfg toy_poisson_prob scenario_model ["z"; "b"; "z"])
    (predict scenario_cfg toy_poisson_prob scenario_model ["b"; "z"]) /\
  (missing_ratio scenario_model ["z"; "b"; "z"] == 1 # 2)%Q.
Proof.
  destruct (predict_stack_as_set scenario_cfg toy_poisson_prob scenario_model
              ["z"; "b"; "z"] ["b"; "z"]) as [Hsame Hratio].
  { intros n. rewrite !elem_of_cons. tauto. }
  split; [exact Hsame|]. rewrite Hratio. reflexivity.
Defined.

(** X5: on a model whose fallback scores and Poisson scores have one row
    per package, which names every package and whose manifest keys read as
    [-1] or as a row of theta, [predict] raises on the empty stack only,
    and then [ZeroDivisionError]. *)
Theorem predict_raises_only_on_empty (cfg : Config)
    (poisson_prob : list Q -> matrix -> matrix) (self : HPFScoring)
    (input_stack : list string) :
  length (dummy_result self) = packages self ->
  (forall row, length (poisson_prob row (beta self)) = packages self) ->
  names_cover self (packages self) = true ->
  manifests_ok self = true ->
  (input_stack ≠ [] ->
   exists recs topics,
     predict cfg poisson_prob self input_stack
       = Ok (recs, topics, elements (missing_names self input_stack))) /\
  (forall e : exn,
     predict cfg poisson_prob self input_stack = Raise e ->
     input_stack = [] /\ e = ZeroDivisionError).
Proof.
  intros Hd Hshape Hnames Hman.
  assert (input_stack ≠ [] ->
          exists recs topics,
            predict cfg poisson_prob self input_stack
              = Ok (recs, topics, elements (missing_names self input_stack)))
    as Hok.
  { intros Hne.
    destruct (predict_nonempty cfg poisson_prob self input_stack Hne)
      as [t Hp].
    destruct (folding_in_returns cfg poisson_prob self
                (input_ids self input_stack) Hd Hshape Hnames Hman)
      as [recs Hrecs].
    rewrite Hp, Hrecs. cbn [mbind res_bind].
    destruct (Qlt_bool _ _); eauto. }
  split; [exact Hok|]. intros e He.
  destruct input_stack as [|x l].
  - rewrite predict_empty in He. inversion He. auto.
  - destruct Hok as (recs & t & Hp); [discriminate|]. congruence.
Qed.

Lemma scenario_poisson_rows (row : list Q) :
  length (toy_poisson_prob row (beta scenario_model)) = packages scenario_model.
Proof. apply toy_poisson_prob_rows. Qed.

(** X5 on the scenario model. *)
Lemma predict_raises_only_on_empty_witness :
  exists recs topics,
    predict scenario_cfg toy_poisson_prob scenario_model ["b"; "c"]
      = Ok (recs, topics, elements (missing_names scenario_model ["b"; "c"])).
Proof.
  apply (predict_raises_only_on_empty scenario_cfg toy_poisson_prob
           scenario_model ["b"; "c"] eq_refl scenario_poisson_rows
           eq_refl eq_refl).
  discriminate.
Defined.

(** X6: when [predict] returns and [MAX_COMPANION_REC_COUNT] is positive,
    the number of recommendations is the smaller of that count and the
    number of packages if the missing ratio is below the threshold, and
    zero otherwise. *)
Theorem predict_recommendation_count (cfg : Config)
    (poisson_prob : list Q -> matrix -> matrix) (self : HPFScoring)
    (input_stack : list string) (recs : list recommendation)
    (topics : gmap string (list string)) (missing : list string) :
  0 < MAX_COMPANION_REC_COUNT cfg ->
  predict cfg poisson_prob self input_stack = Ok (recs, topics, missing) ->
  Z.of_nat (length recs)
  = if Qlt_bool (missing_ratio self input_stack)
         (UNKNOWN_PACKAGES_THRESHOLD cfg)
    then Z.min (MAX_COMPANION_REC_COUNT cfg) (Z.of_nat (packages self))
    else 0.
Proof.
  intros Hmax H. pose proof (predict_ok_nonempty _ _ _ _ _ H) as Hne.
  destruct (predict_nonempty cfg poisson_prob self input_stack Hne) as [t Hp].
  rewrite Hp in H. destruct (Qlt_bool _ _).
  - destruct (folding_in _ _ _ _) as [rs|e] eqn:Hf; [|discriminate].
    cbn [mbind res_bind] in H. inversion H; subst.
    apply folding_in_inv in Hf as (result & nr & Hn & Hfr & _).
    rewrite (filter_recommendation_length _ _ _ _ Hmax Hfr).
    rewrite (normalize_result_length _ _ _ _ Hn). reflexivity.
  - inversion H; subst. reflexivity.
Qed.

(** X6 on the scenario model: three packages, room for five. *)
Lemma predict_recommendation_count_witness :
  exists recs topics missing,
    predict scenario_cfg toy_poisson_prob scenario_model ["b"; "c"]
      = Ok (recs, topics, missing) /\
    Z.of_nat (length recs) = 3.
Proof.
  destruct (predict scenario_cfg toy_poisson_prob scenario_model ["b"; "c"])
    as [[[recs topics] missing]|e] eqn:Hp; [|vm_compute in Hp; discriminate].
  exists recs, topics, missing. split; [reflexivity|].
  rewrite (predict_recommendation_count scenario_cfg toy_poisson_prob
             scenario_model ["b"; "c"] recs topics missing eq_refl Hp).
  reflexivity.
Defined.

(** ** [filter_recommendation]: errors, exact count, the kept indices *)

Lemma mapM_res_raise {A B} (f : A -> res B) (l : list A) (e : exn) :
  Forall (fun x => is_ok (f x) = true \/ f x = Raise e) l ->
  Exists (fun x => f x = Raise e) l ->
  mapM_res f l = Raise e.
Proof.
  induction 1 as [|x l Hx _ IH]; intros Hex; [inversion Hex|].
  simpl. destruct (f x) as [y|e'] eqn:Hfx.
  - apply Exists_cons in Hex as [?|Hex]; [congruence|].
    rewrite (IH Hex). reflexivity.
  - destruct Hx as [Hx|Hx]; [simpl in Hx; discriminate|].
    inversion Hx. reflexivity.
Qed.

Lemma argsort_elem (result : list Q) (i : nat) :
  i ∈ argsort result <-> (i < length result)%nat.
Proof. rewrite argsort_perm, elem_of_seq. lia. Qed.

Lemma kept_indices_elem (result : list Q) (max_count : Z) (i : nat) :
  i ∈ kept_indices result max_count -> (i < length result)%nat.
Proof.
  intros H. apply argsort_elem.
  destruct (slice_from_suffix (- max_count) (argsort result)) as [k Hk].
  rewrite Hk. apply elem_of_app. right. exact H.
Qed.

Lemma slice_from_length_any {A} (k : Z) (l : list A) :
  Z.of_nat (length (slice_from k l))
  = Z.of_nat (length l)
    - (if k <? 0 then Z.max (Z.of_nat (length l) + k) 0
       else Z.min k (Z.of_nat (length l))).
Proof.
  unfold slice_from. rewrite length_drop.
  destruct (Z.ltb_spec k 0); lia.
Qed.

(** X7: [filter_recommendation] raises [KeyError] as soon as one of the
    indices it keeps has no entry in the id→name dictionary. *)
Theorem filter_recommendation_key_error (self : HPFScoring)
    (result : list Q) (max_count : Z) (i : nat) :
  i ∈ kept_indices result max_count ->
  dict_get (id_package_dict self) (Z.of_nat i) = None ->
  filter_recommendation self result max_count = Raise KeyError.
Proof.
  intros Hi Hnone. unfold filter_recommendation.
  fold (kept_indices result max_count).
  apply mapM_res_raise.
  - apply Forall_forall. intros j Hj. apply kept_indices_elem in Hj.
    destruct (lookup_lt_is_Some_2 result j Hj) as [x Hx].
    rewrite (np_index_lookup _ _ _ Hx). cbn [mbind res_bind].
    unfold dict_getitem.
    destruct (dict_get (id_package_dict self) (Z.of_nat j)); auto.
  - apply Exists_exists. exists i. split; [exact Hi|].
    pose proof (kept_indices_elem _ _ _ Hi) as Hlt.
    destruct (lookup_lt_is_Some_2 result i Hlt) as [x Hx].
    rewrite (np_index_lookup _ _ _ Hx). cbn [mbind res_bind].
    unfold dict_getitem. rewrite Hnone. reflexivity.
Qed.

(** X7 on the scenario model: a fourth score has no name. *)
Lemma filter_recommendation_key_error_witness :
  filter_recommendation scenario_model
    [(1 # 2)%Q; (1 # 3)%Q; (1 # 4)%Q; (1 # 5)%Q] 4
  = Raise KeyError.
Proof.
  apply (filter_recommendation_key_error scenario_model
           [(1 # 2)%Q; (1 # 3)%Q; (1 # 4)%Q; (1 # 5)%Q] 4 3%nat).
  - vm_compute. apply list_elem_of_here.
  - reflexivity.
Defined.

(** X8: whenever [filter_recommendation] returns, the number of entries
    is [min (max_count, n)] for a positive [max_count] and
    [n - min (- max_count, n)] otherwise, [n] being the number of scores:
    a [max_count] of zero keeps every score and a negative one drops that
    many of the lowest. *)
Theorem filter_recommendation_count_exact (self : HPFScoring)
    (result : list Q) (max_count : Z) (recs : list recommendation) :
  filter_recommendation self result max_count = Ok recs ->
  Z.of_nat (length recs)
  = if 0 <? max_count then Z.min max_count (Z.of_nat (length result))
    else Z.of_nat (length result)
         - Z.min (- max_count) (Z.of_nat (length result)).
Proof.
  intros H. apply mapM_res_length in H. rewrite H.
  rewrite slice_from_length_any, argsort_length.
  destruct (Z.ltb_spec 0 max_count); destruct (Z.ltb_spec (- max_count) 0);
    lia.
Qed.

(** X8 on the scenario model: [max_count = -1] drops the lowest score. *)
Lemma filter_recommendation_count_exact_witness :
  exists recs : list recommendation,
    filter_recommendation scenario_model [(3 # 4)%Q; (-1)%Q; (1 # 4)%Q] (-1)
      = Ok recs /\
    Z.of_nat (length recs) = 2.
Proof.
  destruct (filter_recommendation scenario_model
              [(3 # 4)%Q; (-1)%Q; (1 # 4)%Q] (-1)) as [recs|e] eqn:Hf;
    [|vm_compute in Hf; discriminate].
  exists recs. split; [reflexivity|].
  rewrite (filter_recommendation_count_exact _ _ _ _ Hf). reflexivity.
Defined.

Lemma filter_recommendation_entries (self : HPFScoring)
    (result : list Q) (max_count : Z) (recs : list recommendation) :
  filter_recommendation self result max_count = Ok recs ->
  Forall2 (fun (i : nat) (r : recommendation) =>
             exists score : Q,
               result !! i = Some score /\
               cooccurrence_probability r = (score * 100)%Q /\
               dict_get (id_package_dict self) (Z.of_nat i)
                 = Some (package_name r))
          (kept_indices result max_count) recs.
Proof.
  intros H. unfold filter_recommendation in H.
  fold (kept_indices result max_count) in H. apply mapM_res_inv in H.
  eapply Forall2_impl; [exact H|]. intros i r Hir. simpl in Hir.
  unfold np_index in Hir.
  destruct (Z.ltb_spec (Z.of_nat i) 0); [lia|].
  destruct ((0 <=? Z.of_nat i) && (Z.of_nat i <? Z.of_nat (length result)));
    [|discriminate].
  rewrite Nat2Z.id in Hir.
  destruct (result !! i) as [x|]; [|discriminate].
  cbn [mbind res_bind] in Hir. unfold dict_getitem in Hir.
  destruct (dict_get (id_package_dict self) (Z.of_nat i)) as [name|];
    [|discriminate].
  cbn [mbind res_bind] in Hir. inversion Hir; subst. exists x. auto.
Qed.

(** X9: whenever [filter_recommendation] returns, its entries are those of
    the kept indices, in order, each with one hundred times the score of
    its index; no index is kept twice, and no index left out scores higher
    than a kept one. *)
Theorem filter_recommendation_keeps_highest (self : HPFScoring)
    (result : list Q) (max_count : Z) (recs : list recommendation) :
  filter_recommendation self result max_count = Ok recs ->
  Forall2 (fun (i : nat) (r : recommendation) =>
             exists score : Q,
               result !! i = Some score /\
               cooccurrence_probability r = (score * 100)%Q /\
               dict_get (id_package_dict self) (Z.of_nat i)
                 = Some (package_name r))
          (kept_indices result max_count) recs /\
  NoDup (kept_indices result max_count) /\
  forall i j : nat,
    (i < length result)%nat ->
    i ∉ kept_indices result max_count ->
    j ∈ kept_indices result max_count ->
    score_le result i j.
Proof.
  intros H.
  destruct (slice_from_suffix (- max_count) (argsort result)) as [pre Hpre].
  fold (kept_indices result max_count) in Hpre.
  split; [|split].
  - apply filter_recommendation_entries, H.
  - assert (NoDup (argsort result)) as Hnd
      by (rewrite argsort_perm; apply NoDup_seq).
    rewrite Hpre in Hnd. apply NoDup_app in Hnd as (_ & _ & Hnd). exact Hnd.
  - intros i j Hi Hni Hj.
    pose proof (argsort_sorted result) as Hs. rewrite Hpre in Hs.
    apply (StronglySorted_app_1_elem_of _ _ _ _ _ Hs); [|exact Hj].
    apply argsort_elem in Hi. rewrite Hpre in Hi.
    apply elem_of_app in Hi as [Hi|Hi]; [exact Hi|contradiction].
Qed.

(** X9 on the scenario model: the index of the lowest score is left out. *)
Lemma filter_recommendation_keeps_highest_witness :
  kept_indices [(3 # 4)%Q; (-1)%Q; (1 # 4)%Q] 2 = [2; 0]%nat /\
  score_le [(3 # 4)%Q; (-1)%Q; (1 # 4)%Q] 1 2.
Proof.
  assert (kept_indices [(3 # 4)%Q; (-1)%Q; (1 # 4)%Q] 2 = [2; 0]%nat) as Hk
    by reflexivity.
  split; [exact Hk|].
  destruct (filter_recommendation scenario_model
              [(3 # 4)%Q; (-1)%Q; (1 # 4)%Q] 2) as [recs|e] eqn:Hf;
    [|vm_compute in Hf; discriminate].
  destruct (filter_recommendation_keeps_highest _ _ _ _ Hf) as (_ & _ & Hhi).
  apply Hhi.
  - simpl. lia.
  - rewrite Hk. intros Hin.
    repeat (apply elem_of_cons in Hin as [Hin|Hin]; [discriminate|]).
    inversion Hin.
  - rewrite Hk. apply list_elem_of_here.
Defined.

(** ** [normalize_result]: the scores and the index error *)

(** X10: when the raw scores have at least [array_len] rows
    ([self.packages] rows when [array_len] is omitted), [normalize_result]
    returns [array_len] scores: [-1] at every index of the input set and
    the mean of the row at every other index. *)
Theorem normalize_result_total (self : HPFScoring) (result : matrix)
    (input_id_set : gset Z) (array_len : option nat) :
  (default (packages self) array_len <= length result)%nat ->
  exists normalised : list Q,
    normalize_result self result input_id_set array_len = Ok normalised /\
    length normalised = default (packages self) array_len /\
    forall i : nat,
      (i < default (packages self) array_len)%nat ->
      (Z.of_nat i ∈ input_id_set -> normalised !! i = Some (-1)%Q) /\
      (Z.of_nat i ∉ input_id_set ->
       exists row, result !! i = Some row /\
                   normalised !! i = Some (mean row)).
Proof.
  intros Hlen. unfold normalize_result.
  set (n := default (packages self) array_len) in *.
  exists (normalised_score result input_id_set <$> seq 0 n).
  split; [|split].
  - apply mapM_res_total, Forall_forall. intros i Hi.
    apply elem_of_seq in Hi. unfold normalised_score.
    case_bool_decide; [reflexivity|].
    destruct (lookup_lt_is_Some_2 result i) as [row Hrow]; [lia|].
    rewrite (np_index_lookup _ _ _ Hrow), Hrow. reflexivity.
  - rewrite length_fmap, length_seq. reflexivity.
  - intros i Hi. rewrite list_lookup_fmap, lookup_seq_lt by exact Hi.
    simpl. unfold normalised_score. case_bool_decide as Hin.
    + split; [reflexivity|contradiction].
    + split; [contradiction|]. intros _.
      destruct (lookup_lt_is_Some_2 result i) as [row Hrow]; [lia|].
      exists row. rewrite Hrow. auto.
Qed.

(** X10 on the scenario model, with two of its three rows asked for. *)
Lemma normalize_result_total_witness :
  exists normalised : list Q,
    normalize_result scenario_model (dummy_result scenario_model) {[1]}
      (Some 2%nat) = Ok normalised /\
    length normalised = 2%nat /\
    normalised !! 1%nat = Some (-1)%Q.
Proof.
  destruct (normalize_result_total scenario_model
              (dummy_result scenario_model) {[1]} (Some 2%nat))
    as (nr & Hn & Hlen & Hall); [simpl; lia|].
  exists nr. split; [exact Hn|]. split; [exact Hlen|].
  apply (Hall 1%nat); [simpl; lia|]. apply elem_of_singleton. reflexivity.
Defined.

(** X11: when an index below [array_len] is outside the input set and has
    no row in the raw scores, [normalize_result] raises [IndexError]. *)
Theorem normalize_result_index_error (self : HPFScoring) (result : matrix)
    (input_id_set : gset Z) (array_len : option nat) (i : nat) :
  (i < default (packages self) array_len)%nat ->
  Z.of_nat i ∉ input_id_set ->
  (length result <= i)%nat ->
  normalize_result self result input_id_set array_len = Raise IndexError.
Proof.
  intros Hi Hnin Hlen. unfold normalize_result.
  assert (forall j : nat,
            (length result <= j)%nat ->
            np_index result (Z.of_nat j) = Raise IndexError) as Hout.
  { intros j Hj. unfold np_index.
    destruct (Z.ltb_spec (Z.of_nat j) 0); [lia|].
    destruct (Z.ltb_spec (Z.of_nat j) (Z.of_nat (length result))); [lia|].
    rewrite andb_false_r. reflexivity. }
  apply mapM_res_raise.
  - apply Forall_forall. intros j _. case_bool_decide; [auto|].
    destruct (Nat.lt_ge_cases j (length result)) as [Hlt|Hge].
    + destruct (lookup_lt_is_Some_2 result j Hlt) as [row Hrow].
      rewrite (np_index_lookup _ _ _ Hrow). auto.
    + rewrite (Hout j Hge). auto.
  - apply Exists_exists. exists i. split; [apply elem_of_seq; lia|].
    rewrite bool_decide_eq_false_2 by exact Hnin.
    rewrite (Hout i Hlen). reflexivity.
Qed.

(** X11 on the scenario model: four scores asked of three rows. *)
Lemma normalize_result_index_error_witness :
  normalize_result scenario_model (dummy_result scenario_model) {[1]}
    (Some 4%nat) = Raise IndexError.
Proof.
  apply (normalize_result_index_error scenario_model
           (dummy_result scenario_model) {[1]} (Some 4%nat) 3%nat).
  - simpl. lia.
  - intros Hin. apply elem_of_singleton in Hin. discriminate.
  - simpl. lia.
Defined.

(** ** [match_manifest] and [folding_in]: which manifest, which scores *)

Lemma first_match_split (items : list (string * gset Z)) (s : gset Z)
    (manifest_id : string) :
  first_match items s = Some manifest_id <->
  exists before after,
    items = (before ++ (manifest_id, s) :: after)%list /\
    Forall (fun kv => kv.2 ≠ s) before.
Proof.
  induction items as [|[k d] items IH]; simpl.
  - split; [discriminate|]. intros (before & after & Heq & _).
    destruct before; discriminate.
  - case_bool_decide as Hd.
    + subst d. split.
      * intros [= <-]. exists [], items. split; [reflexivity|constructor].
      * intros (before & after & Heq & Hbefore).
        destruct before as [|[k' d'] before]; simpl in Heq.
        -- inversion Heq. reflexivity.
        -- inversion Heq; subst. apply Forall_cons in Hbefore as [Hne _].
           simpl in Hne. contradiction.
    + rewrite IH. split.
      * intros (before & after & -> & Hbefore).
        exists ((k, d) :: before), after. split; [reflexivity|].
        constructor; assumption.
      * intros (before & after & Heq & Hbefore).
        destruct before as [|[k' d'] before]; simpl in Heq.
        -- inversion Heq; subst. contradiction.
        -- inversion Heq; subst. apply Forall_cons in Hbefore as [_ Hbefore].
           eauto.
Qed.

(** X12: [match_manifest] returns the key of the first manifest, in the
    order of the dictionary, whose id-set equals the input set: a key is
    returned exactly when its manifest has the input set and no earlier
    manifest has it. *)
Theorem match_manifest_first_in_order (self : HPFScoring)
    (input_id_set : gset Z) (manifest_id : string) :
  match_manifest self input_id_set = PyStr manifest_id <->
  exists before after,
    manifest_id_dict self
      = (before ++ (manifest_id, input_id_set) :: after)%list /\
    Forall (fun kv => kv.2 ≠ input_id_set) before.
Proof.
  rewrite <- first_match_split. unfold match_manifest.
  destruct (first_match _ _) as [k|]; split; congruence.
Qed.

(** X12 on a model with two manifests of the set [{0, 1}]. *)
Lemma match_manifest_first_in_order_witness :
  match_manifest twin_manifest_model {[0; 1]} = PyStr "0".
Proof.
  apply (match_manifest_first_in_order twin_manifest_model {[0; 1]} "0").
  exists [("7", {[2]})], [("5", {[0; 1]})]. split; [reflexivity|].
  constructor; [|constructor]. simpl. intros Heq.
  assert (2 ∈ ({[0; 1]} : gset Z)) as Hin
    by (rewrite <- Heq; apply elem_of_singleton; reflexivity).
  apply elem_of_union in Hin as [Hin|Hin];
    apply elem_of_singleton in Hin; discriminate.
Defined.

Lemma np_index_row {A} (l : list A) (z : Z) :
  0 <= z < Z.of_nat (length l) ->
  exists x, l !! Z.to_nat z = Some x /\ np_index l z = Ok x.
Proof.
  intros Hz. destruct (lookup_lt_is_Some_2 l (Z.to_nat z)) as [x Hx]; [lia|].
  exists x. split; [exact Hx|].
  rewrite <- (Z2Nat.id z) by lia. apply np_index_lookup, Hx.
Qed.

Lemma np_index_out {A} (l : list A) (z : Z) :
  z < - Z.of_nat (length l) \/ Z.of_nat (length l) <= z ->
  np_index l z = Raise IndexError.
Proof.
  intros Hz. unfold np_index.
  destruct (Z.ltb_spec z 0).
  - destruct (Z.leb_spec 0 (Z.of_nat (length l) + z)); [lia|]. reflexivity.
  - destruct (Z.ltb_spec z (Z.of_nat (length l))); [lia|].
    rewrite andb_false_r. reflexivity.
Qed.

Lemma np_index_elem {A} (l : list A) (z : Z) (x : A) :
  np_index l z = Ok x -> x ∈ l.
Proof.
  unfold np_index. destruct (_ && _); [|discriminate].
  destruct (l !! _) as [y|] eqn:Hy; [|discriminate].
  intros [= <-]. eapply list_elem_of_lookup_2, Hy.
Qed.

(** X13: when the matching manifest has the key of a row of theta, a
    decimal number from [0] to [manifests - 1], [folding_in] normalises and
    filters the Poisson scores of that row against beta. *)
Theorem folding_in_matched_row (cfg : Config)
    (poisson_prob : list Q -> matrix -> matrix) (self : HPFScoring)
    (input_id_set : gset Z) (manifest_id : string) (z : Z) :
  match_manifest self input_id_set = PyStr manifest_id ->
  int_of_str manifest_id = Ok z ->
  0 <= z < Z.of_nat (length (theta self)) ->
  exists row : list Q,
    theta self !! Z.to_nat z = Some row /\
    folding_in cfg poisson_prob self input_id_set
    = (normalised_result ←
         normalize_result self (poisson_prob row (beta self)) input_id_set
           None;
       filter_recommendation self normalised_result
         (MAX_COMPANION_REC_COUNT cfg)).
Proof.
  intros Hm Hz Hrange.
  destruct (np_index_row (theta self) z Hrange) as (row & Hrow & Hidx).
  exists row. split; [exact Hrow|].
  unfold folding_in. rewrite Hm. cbn [py_int]. rewrite Hz.
  cbn [mbind res_bind].
  destruct (Z.eqb_spec z (-1)) as [?|_]; [lia|].
  rewrite Hidx. reflexivity.
Qed.

(** X13 on the scenario model: the set [{0, 1}] is scored with row [0]. *)
Lemma folding_in_matched_row_witness :
  exists row : list Q,
    theta scenario_model !! 0%nat = Some row /\
    folding_in scenario_cfg toy_poisson_prob scenario_model {[0; 1]}
    = (normalised_result ←
         normalize_result scenario_model
           (toy_poisson_prob row (beta scenario_model)) {[0; 1]} None;
       filter_recommendation scenario_model normalised_result
         (MAX_COMPANION_REC_COUNT scenario_cfg)).
Proof.
  apply (folding_in_matched_row scenario_cfg toy_poisson_prob scenario_model
           {[0; 1]} "0" 0); [vm_compute; reflexivity|reflexivity|simpl; lia].
Defined.

(** X14: a matching manifest whose key reads as [-1] is taken for no
    match: [folding_in] scores the input with the fallback scores, not with
    the last row of theta. *)
Theorem folding_in_key_minus_one (cfg : Config)
    (poisson_prob : list Q -> matrix -> matrix) (self : HPFScoring)
    (input_id_set : gset Z) (manifest_id : string) :
  match_manifest self input_id_set = PyStr manifest_id ->
  int_of_str manifest_id = Ok (-1) ->
  folding_in cfg poisson_prob self input_id_set
  = (normalised_result ←
       normalize_result self (dummy_result self) input_id_set None;
     filter_recommendation self normalised_result
       (MAX_COMPANION_REC_COUNT cfg)).
Proof.
  intros Hm Hz. unfold folding_in. rewrite Hm. cbn [py_int]. rewrite Hz.
  reflexivity.
Qed.

(** X14 on a model whose only manifest has the key ["-1"]. *)
Lemma folding_in_key_minus_one_witness :
  folding_in scenario_cfg toy_poisson_prob minus_one_manifest_model {[1; 2]}
  = (normalised_result ←
       normalize_result minus_one_manifest_model
         (dummy_result minus_one_manifest_model) {[1; 2]} None;
     filter_recommendation minus_one_manifest_model normalised_result
       (MAX_COMPANION_REC_COUNT scenario_cfg)).
Proof.
  apply (folding_in_key_minus_one scenario_cfg toy_poisson_prob
           minus_one_manifest_model {[1; 2]} "-1");
    [vm_compute; reflexivity|reflexivity].
Defined.

(** X15: when the key of the matching manifest reads as a number that is
    no row of theta, neither from the front nor from the end,
    [folding_in] raises [IndexError]. *)
Theorem folding_in_row_out_of_range (cfg : Config)
    (poisson_prob : list Q -> matrix -> matrix) (self : HPFScoring)
    (input_id_set : gset Z) (manifest_id : string) (z : Z) :
  match_manifest self input_id_set = PyStr manifest_id ->
  int_of_str manifest_id = Ok z ->
  z ≠ -1 ->
  z < - Z.of_nat (length (theta self)) \/ Z.of_nat (length (theta self)) <= z ->
  folding_in cfg poisson_prob self input_id_set = Raise IndexError.
Proof.
  intros Hm Hz Hne Hout. unfold folding_in. rewrite Hm. cbn [py_int].
  rewrite Hz. cbn [mbind res_bind].
  apply Z.eqb_neq in Hne. rewrite Hne, (np_index_out _ _ Hout). reflexivity.
Qed.

(** X15 on a model with a manifest ["5"] and one row of theta. *)
Lemma folding_in_row_out_of_range_witness :
  folding_in scenario_cfg toy_poisson_prob
    (with_manifests scenario_model [("5", {[2]})]) {[2]}
  = Raise IndexError.
Proof.
  apply (folding_in_row_out_of_range scenario_cfg toy_poisson_prob
           (with_manifests scenario_model [("5", {[2]})]) {[2]} "5" 5);
    [vm_compute; reflexivity|reflexivity|discriminate|simpl; lia].
Defined.

(** ** [predict]: when the packages of the stack stay out of the list *)

Lemma positive_means_scenario :
  Forall (fun row => (-1 < mean row)%Q) (dummy_result scenario_model).
Proof. repeat constructor. Qed.

(** X16: when [predict] returns on a model whose id→name dictionary is the
    inverse of its package dictionary, with a positive
    [MAX_COMPANION_REC_COUNT] that leaves room for the input ids among the
    packages, and raw scores whose row means are above [-1], no
    recommendation bears the name of a package of the stack that has a
    non-zero id. *)
Theorem predict_excludes_resolved_names (cfg : Config)
    (poisson_prob : list Q -> matrix -> matrix) (self : HPFScoring)
    (input_stack : list string) (recs : list recommendation)
    (topics : gmap string (list string)) (missing : list string) :
  predict cfg poisson_prob self input_stack = Ok (recs, topics, missing) ->
  dict_wf (package_id_dict self) ->
  id_package_dict self = invert (package_id_dict self) ->
  0 < MAX_COMPANION_REC_COUNT cfg ->
  MAX_COMPANION_REC_COUNT cfg
    + Z.of_nat (excluded_count self (input_ids self input_stack))
    <= Z.of_nat (packages self) ->
  Forall (fun row => (-1 < mean row)%Q) (dummy_result self) ->
  (forall row, row ∈ theta self ->
     Forall (fun r => (-1 < mean r)%Q) (poisson_prob row (beta self))) ->
  forall (r : recommendation) (n : string) (id : Z),
    r ∈ recs ->
    n ∈ input_stack ->
    dict_get (package_id_dict self) n = Some id ->
    id ≠ 0 ->
    package_name r ≠ n.
Proof.
  intros H Hwf Hinv Hmax Hroom Hdummy Hrows r n id Hr Hn Hid Hid0 Hname.
  apply predict_ok_parts in H as (_ & _ & [->|Hf]); [inversion Hr|].
  apply folding_in_inv in Hf as (result & nr & Hnorm & Hfilter & Hsrc).
  assert (Forall (fun row => (-1 < mean row)%Q) result) as Hpos.
  { destruct Hsrc as [->|(z & row & Hrow & ->)]; [exact Hdummy|].
    apply Hrows. eapply np_index_elem, Hrow. }
  pose proof (filter_recommendation_excludes_input self result _ nr _
                Hnorm Hpos Hmax Hroom) as Hex.
  fold (kept_indices nr (MAX_COMPANION_REC_COUNT cfg)) in Hex.
  pose proof (filter_recommendation_entries _ _ _ _ Hfilter) as Hent.
  apply list_elem_of_lookup in Hr as [k Hk].
  destruct (Forall2_lookup_r _ _ _ _ _ Hent Hk) as (i & Hi & _ & _ & _ & Hnm).
  rewrite Forall_forall in Hex.
  apply (Hex i (list_elem_of_lookup_2 _ _ _ Hi)).
  rewrite Hinv, Hname in Hnm. apply invert_sound in Hnm; [|exact Hwf].
  assert (Z.of_nat i = id) as -> by congruence.
  apply input_ids_spec. eauto.
Qed.

(** X16 on the scenario model with room for one recommendation: the stack
    [b] is answered with a package other than [b]. *)
Lemma predict_excludes_resolved_names_witness :
  exists recs topics missing,
    predict scenario_cfg_top1 toy_poisson_prob scenario_model ["b"]
      = Ok (recs, topics, missing) /\
    forall r, r ∈ recs -> package_name r ≠ "b".
Proof.
  destruct (predict scenario_cfg_top1 toy_poisson_prob scenario_model ["b"])
    as [[[recs topics] missing]|e] eqn:Hp; [|vm_compute in Hp; discriminate].
  exists recs, topics, missing. split; [reflexivity|]. intros r Hr.
  apply (predict_excludes_resolved_names scenario_cfg_top1 toy_poisson_prob
           scenario_model ["b"] recs topics missing Hp) with (id := 1).
  - unfold dict_wf. simpl. repeat constructor; intros Hin;
      repeat (apply elem_of_cons in Hin as [Hin|Hin]; [discriminate|]);
      inversion Hin.
  - reflexivity.
  - reflexivity.
  - vm_compute. discriminate.
  - exact positive_means_scenario.
  - intros row Hrow. apply list_elem_of_singleton in Hrow as ->.
    repeat constructor.
  - exact Hr.
  - apply list_elem_of_here.
  - reflexivity.
  - discriminate.
Defined.

(** ** Loading: the dictionaries *)

Section PyDictOrder.
Context {K V : Type} `{EqDecision K}.
Implicit Types (d : list (K * V)) (k : K) (v : V).

Lemma dict_set_fresh d k v :
  k ∉ d.*1 -> dict_set d k v = (d ++ [(k, v)])%list.
Proof.
  induction d as [|[k0 v0] d IH]; simpl; [reflexivity|].
  rewrite not_elem_of_cons. intros [Hne Hnin].
  rewrite decide_False by congruence. rewrite IH by exact Hnin. reflexivity.
Qed.

Lemma dict_fold_fresh (l : list (K * V)) d :
  NoDup (d.*1 ++ l.*1) ->
  foldl (fun d kv => dict_set d kv.1 kv.2) d l = (d ++ l)%list.
Proof.
  revert d. induction l as [|[k v] l IH]; intros d Hnd; simpl.
  - rewrite app_nil_r. reflexivity.
  - simpl in Hnd. rewrite dict_set_fresh.
    + rewrite IH; [rewrite <- app_assoc; reflexivity|].
      rewrite fmap_app, <- app_assoc. exact Hnd.
    + apply NoDup_app in Hnd as (_ & Hdis & _). intros Hin.
      apply (Hdis k Hin). apply list_elem_of_here.
Qed.

(** A list of items with distinct keys is its own dictionary. *)
Lemma dict_of_items_nodup (l : list (K * V)) :
  NoDup l.*1 -> dict_of_items l = l.
Proof. intros Hnd. unfold dict_of_items. apply dict_fold_fresh, Hnd. Qed.

Lemma dict_get_reverse_None d k :
  dict_get (reverse d) k = None <-> k ∉ d.*1.
Proof.
  rewrite dict_get_None, fmap_reverse, elem_of_reverse. reflexivity.
Qed.
End PyDictOrder.

Lemma dict_comp_keys {K V V'} `{EqDecision K} (g : K * V -> V')
    (d : list (K * V)) :
  NoDup d.*1 ->
  dict_comp (fun kv => (kv.1, g kv)) d = (fun kv => (kv.1, g kv)) <$> d.
Proof.
  intros Hnd. unfold dict_comp. apply dict_of_items_nodup.
  rewrite <- list_fmap_compose.
  rewrite (list_fmap_ext (fst ∘ (fun kv => (kv.1, g kv))) fst d);
    [exact Hnd|].
  intros i x _. reflexivity.
Qed.

Lemma load_jsons_inv (cfg : Config) (self self' : HPFScoring) :
  load_jsons cfg self = Ok self' ->
  dict_wf (package_id_dict self') /\
  id_package_dict self' = invert (package_id_dict self') /\
  theta self' = theta self /\ beta self' = beta self /\
  datastore self' = datastore self.
Proof.
  unfold load_jsons, read_json_file.
  fold (package_id_dict_path cfg). fold (manifest_id_dict_path cfg).
  intros H.
  destruct (documents (datastore self) !! package_id_dict_path cfg)
    as [[d|d]|]; cbn [mbind res_bind] in H; [| |discriminate].
  - destruct (documents (datastore self) !! manifest_id_dict_path cfg)
      as [[d'|d']|]; cbn [mbind res_bind] in H; [| |discriminate].
    + destruct (dict_of_items d') as [|]; cbn [mbind res_bind] in H;
        [|discriminate].
      inversion H; subst. simpl. repeat split. apply dict_of_items_wf.
    + inversion H; subst. simpl. repeat split. apply dict_of_items_wf.
  - destruct (dict_of_items d) as [|]; cbn [mbind res_bind] in H;
      [|discriminate].
    destruct (documents (datastore self) !! manifest_id_dict_path cfg)
      as [[d'|d']|]; cbn [mbind res_bind] in H; [| |discriminate].
    + destruct (dict_of_items d') as [|]; cbn [mbind res_bind] in H;
        [|discriminate].
      inversion H; subst. simpl. repeat split. apply NoDup_nil_2.
    + inversion H; subst. simpl. repeat split. apply NoDup_nil_2.
Qed.

(** X17: with both documents in the store, the manifest dictionary that
    [load_jsons] builds has the keys of the parsed document in the same
    order, each with the set of the ids of its list: the order of the ids
    in a list and their repetition are dropped. *)
Theorem load_jsons_manifest_sets (cfg : Config) (self : HPFScoring)
    (package_items : list (string * Z))
    (manifest_items : list (string * list Z)) :
  documents (datastore self) !! package_id_dict_path cfg
    = Some (JsonPackages package_items) ->
  documents (datastore self) !! manifest_id_dict_path cfg
    = Some (JsonManifests manifest_items) ->
  exists self' : HPFScoring,
    load_jsons cfg self = Ok self' /\
    manifest_id_dict self' = manifest_sets (dict_of_items manifest_items) /\
    forall (k : string) (s : gset Z),
      (k, s) ∈ manifest_id_dict self' <->
      exists l : list Z,
        (k, l) ∈ dict_of_items manifest_items /\
        forall x : Z, x ∈ s <-> x ∈ l.
Proof.
  intros Hp Hm. eexists. split; [apply (load_jsons_ok _ _ _ _ Hp Hm)|].
  simpl.
  assert (dict_comp (fun '(n, x) => (n, (list_to_set x : gset Z)))
            (dict_of_items manifest_items)
          = manifest_sets (dict_of_items manifest_items)) as ->.
  { unfold manifest_sets.
    rewrite <- (dict_comp_keys (fun kv => (list_to_set kv.2 : gset Z)))
      by apply dict_of_items_wf.
    unfold dict_comp. f_equal. apply list_fmap_ext.
    intros i [n x] _. reflexivity. }
  split; [reflexivity|]. intros k s. unfold manifest_sets.
  rewrite list_elem_of_fmap. split.
  - intros ([k' l] & [= -> ->] & Hin). exists l. split; [exact Hin|].
    intros x. apply elem_of_list_to_set.
  - intros (l & Hin & Hs). exists (k, l). split; [|exact Hin].
    simpl. f_equal. apply set_eq. intros x.
    rewrite Hs, elem_of_list_to_set. reflexivity.
Qed.

(** X17 on the scenario store. *)
Lemma load_jsons_manifest_sets_witness :
  exists self' : HPFScoring,
    load_jsons scenario_cfg scenario_model = Ok self' /\
    manifest_id_dict self' = [("0", {[0; 1]})].
Proof.
  destruct (load_jsons_manifest_sets scenario_cfg scenario_model
              [("a", 0); ("b", 1); ("c", 2)] [("0", [0; 1])]
              eq_refl eq_refl) as (self' & Hload & Hm & _).
  exists self'. split; [exact Hload|]. rewrite Hm.
  vm_compute. reflexivity.
Defined.

(** X18: in every model [load_jsons] returns, the id→name dictionary has
    one entry for every id the package dictionary uses, and that entry is
    the name of the last item, in the order of the package dictionary, with
    this id. *)
Theorem load_jsons_last_name_wins (cfg : Config) (self self' : HPFScoring) :
  load_jsons cfg self = Ok self' ->
  dict_wf (id_package_dict self') /\
  (forall (n : string) (x : Z),
     dict_get (package_id_dict self') n = Some x ->
     exists n', dict_get (id_package_dict self') x = Some n' /\
                dict_get (package_id_dict self') n' = Some x) /\
  forall (before after : list (string * Z)) (n : string) (x : Z),
    package_id_dict self' = (before ++ (n, x) :: after)%list ->
    x ∉ after.*2 ->
    dict_get (id_package_dict self') x = Some n.
Proof.
  intros H. apply load_jsons_inv in H as (Hwf & Hinv & _).
  rewrite Hinv. split; [apply dict_of_items_wf|]. split.
  - intros n x Hn.
    destruct (dict_get_is_Some
                (reverse ((fun '(n, x) => (x, n)) <$> package_id_dict self'))
                x n) as [n' Hn'].
    { apply invert_elem, dict_get_elem, Hn. }
    exists n'. unfold invert, dict_comp. rewrite dict_of_items_get.
    split; [exact Hn'|].
    apply dict_get_elem, invert_elem in Hn'. apply dict_get_wf; assumption.
  - intros before after n x Heq Hafter.
    unfold invert, dict_comp. rewrite dict_of_items_get, Heq.
    rewrite fmap_app, reverse_app, fmap_cons, reverse_cons, <- app_assoc.
    rewrite dict_get_app.
    assert (dict_get (reverse ((fun '(n, x) => (x, n)) <$> after)) x = None)
      as ->.
    { apply dict_get_reverse_None. rewrite <- list_fmap_compose.
      intros Hin. apply Hafter.
      apply list_elem_of_fmap in Hin as ([n0 x0] & -> & Hin).
      apply (list_elem_of_fmap_2 snd _ (n0, x0)), Hin. }
    simpl. rewrite decide_True by reflexivity. reflexivity.
Qed.

(** X18 on the store whose dictionary gives the id [0] to [a] and [b]. *)
Lemma load_jsons_last_name_wins_witness :
  exists self' : HPFScoring,
    load_jsons scenario_cfg collision_object = Ok self' /\
    package_id_dict self' = [("a", 0); ("b", 0)] /\
    dict_get (id_package_dict self') 0 = Some "b".
Proof.
  destruct (load_jsons scenario_cfg collision_object) as [self'|e] eqn:Hl;
    [|vm_compute in Hl; discriminate].
  assert (package_id_dict self' = [("a", 0); ("b", 0)]) as Hpid
    by (vm_compute in Hl; inversion Hl; reflexivity).
  exists self'. split; [reflexivity|]. split; [exact Hpid|].
  destruct (load_jsons_last_name_wins scenario_cfg _ self' Hl)
    as (_ & _ & Hlast).
  apply (Hlast [("a", 0)] [] "b" 0 Hpid). intros Hin. inversion Hin.
Defined.

(** ** Loading: the constructor and the disk *)

Lemma manifest_comp_sets (d : list (string * list Z)) :
  dict_comp (fun '(n, x) => (n, (list_to_set x : gset Z))) (dict_of_items d)
  = manifest_sets (dict_of_items d).
Proof.
  unfold manifest_sets.
  rewrite <- (dict_comp_keys (fun kv => (list_to_set kv.2 : gset Z)))
    by apply dict_of_items_wf.
  unfold dict_comp. f_equal. apply list_fmap_ext.
  intros i [n x] _. reflexivity.
Qed.

Lemma load_local_run (cfg : Config) (self : HPFScoring)
    (fs : gmap string file) (theta_m beta_m : matrix) :
  fs !! local_theta_path cfg (datastore self) = Some (Npz theta_m) ->
  fs !! local_beta_path cfg (datastore self) = Some (Npz beta_m) ->
  run (load_local cfg self) fs
  = (fs, load_jsons cfg (set_beta (set_theta self theta_m) beta_m)).
Proof.
  intros Hth Hbe. unfold load_local, mbind, io_bind, load_npz, lift.
  fold (local_theta_path cfg (datastore self)).
  cbn [run]. rewrite Hth. cbn [run datastore set_theta].
  fold (local_beta_path cfg (datastore self)). rewrite Hbe. reflexivity.
Qed.

Lemma load_s3_run (cfg : Config) (self : HPFScoring)
    (fs : gmap string file) (theta_m beta_m : matrix) :
  bucket (datastore self) !! theta_matrix_key cfg = Some (Npz theta_m) ->
  bucket (datastore self) !! beta_matrix_key cfg = Some (Npz beta_m) ->
  run (load_s3 cfg self) fs
  = (delete item_matrix_tmp (delete user_matrix_tmp fs),
     load_jsons cfg (set_beta (set_theta self theta_m) beta_m)).
Proof.
  intros Hth Hbe. unfold load_s3.
  fold (theta_matrix_key cfg). fold (beta_matrix_key cfg).
  rewrite (stage_decode_remove (datastore self) _ _ theta_m
             _ (fun m => _ ← download_file _ _ _; _) Hth).
  rewrite (stage_decode_remove (datastore self) _ _ beta_m
             _ (fun m => lift (load_jsons cfg (set_beta _ m))) Hbe).
  reflexivity.
Qed.

(** X19: [load_local] only reads: whatever it returns or raises, the disk
    is as before; with both matrix files on the disk it hands the two
    decoded matrices over to [load_jsons]. *)
Theorem load_local_reads_only (cfg : Config) (self : HPFScoring)
    (fs : gmap string file) :
  (run (load_local cfg self) fs).1 = fs /\
  forall theta_m beta_m : matrix,
    fs !! local_theta_path cfg (datastore self) = Some (Npz theta_m) ->
    fs !! local_beta_path cfg (datastore self) = Some (Npz beta_m) ->
    (run (load_local cfg self) fs).2
    = load_jsons cfg (set_beta (set_theta self theta_m) beta_m).
Proof.
  split.
  - unfold load_local, mbind, io_bind, load_npz, lift. cbn [run].
    destruct (fs !! _) as [[m|]|]; cbn [run]; try reflexivity.
    destruct (fs !! _) as [[m'|]|]; reflexivity.
  - intros theta_m beta_m Hth Hbe.
    rewrite (load_local_run _ _ _ _ _ Hth Hbe). reflexivity.
Qed.

(** X19 on the scenario disk. *)
Lemma load_local_reads_only_witness :
  (run (load_local scenario_cfg scenario_model) scenario_disk).2
  = load_jsons scenario_cfg
      (set_beta (set_theta scenario_model scenario_theta) scenario_beta).
Proof.
  apply (proj2 (load_local_reads_only scenario_cfg scenario_model
                  scenario_disk) scenario_theta scenario_beta);
    reflexivity.
Defined.

(** X20: over a local store with the two matrix files on the disk and the
    two documents in the store, the constructor returns an object and
    leaves the disk as it was; the object holds the decoded matrices, their
    row counts as [manifests] and [packages], the package dictionary with
    its inverse, the manifest sets, and the fallback scores, which are the
    Poisson scores of the fallback rate against beta. *)
Theorem init_local_store (cfg : Config) (gamma_prob : Q -> Q -> Q -> Q)
    (poisson_prob : list Q -> matrix -> matrix) (ds : DataStore)
    (fs : gmap string file) (theta_m beta_m : matrix)
    (package_items : list (string * Z))
    (manifest_items : list (string * list Z)) :
  kind ds = LocalDataStore ->
  fs !! local_theta_path cfg ds = Some (Npz theta_m) ->
  fs !! local_beta_path cfg ds = Some (Npz beta_m) ->
  documents ds !! package_id_dict_path cfg
    = Some (JsonPackages package_items) ->
  documents ds !! manifest_id_dict_path cfg
    = Some (JsonManifests manifest_items) ->
  exists self : HPFScoring,
    run (__init__ cfg gamma_prob poisson_prob ds) fs = (fs, Ok self) /\
    theta self = theta_m /\ beta self = beta_m /\
    manifests self = length theta_m /\ packages self = length beta_m /\
    package_id_dict self = dict_of_items package_items /\
    id_package_dict self = invert (dict_of_items package_items) /\
    manifest_id_dict self = manifest_sets (dict_of_items manifest_items) /\
    theta_dummy self = fallback_rate cfg gamma_prob /\
    dummy_result self
      = poisson_prob (fallback_rate cfg gamma_prob) beta_m.
Proof.
  intros Hk Hth Hbe Hp Hm. eexists. split.
  - unfold __init__, mbind, io_bind, mret, io_ret. cbn [run]. rewrite Hk.
    erewrite load_local_run; [|exact Hth|exact Hbe].
    erewrite load_jsons_ok; [|exact Hp|exact Hm].
    reflexivity.
  - simpl. rewrite manifest_comp_sets. repeat split; reflexivity.
Qed.

(** X20 on the scenario store kept on a local disk. *)
Lemma init_local_store_witness :
  exists self : HPFScoring,
    run (__init__ scenario_cfg toy_gamma_prob toy_poisson_prob
           (scenario_store LocalDataStore Corrupt)) scenario_disk
      = (scenario_disk, Ok self) /\
    packages self = 3%nat /\ manifests self = 1%nat.
Proof.
  destruct (init_local_store scenario_cfg toy_gamma_prob toy_poisson_prob
              (scenario_store LocalDataStore Corrupt) scenario_disk
              scenario_theta scenario_beta
              [("a", 0); ("b", 1); ("c", 2)] [("0", [0; 1])]
              eq_refl eq_refl eq_refl eq_refl eq_refl)
    as (self & Hrun & _ & _ & Hman & Hpk & _).
  exists self. split; [exact Hrun|]. split; [exact Hpk|exact Hman].
Defined.

(** X21: over an S3 store with the two matrix objects in the bucket and
    the two documents in the store, the constructor returns the same object
    as over a local store, and the disk it leaves has neither staging
    file; a file that was at a staging path before the load is gone. *)
Theorem init_s3_store (cfg : Config) (gamma_prob : Q -> Q -> Q -> Q)
    (poisson_prob : list Q -> matrix -> matrix) (ds : DataStore)
    (fs : gmap string file) (theta_m beta_m : matrix)
    (package_items : list (string * Z))
    (manifest_items : list (string * list Z)) :
  kind ds = S3DataStore ->
  bucket ds !! theta_matrix_key cfg = Some (Npz theta_m) ->
  bucket ds !! beta_matrix_key cfg = Some (Npz beta_m) ->
  documents ds !! package_id_dict_path cfg
    = Some (JsonPackages package_items) ->
  documents ds !! manifest_id_dict_path cfg
    = Some (JsonManifests manifest_items) ->
  exists self : HPFScoring,
    run (__init__ cfg gamma_prob poisson_prob ds) fs
      = (delete item_matrix_tmp (delete user_matrix_tmp fs), Ok self) /\
    theta self = theta_m /\ beta self = beta_m /\
    manifests self = length theta_m /\ packages self = length beta_m /\
    package_id_dict self = dict_of_items package_items /\
    id_package_dict self = invert (dict_of_items package_items) /\
    manifest_id_dict self = manifest_sets (dict_of_items manifest_items) /\
    theta_dummy self = fallback_rate cfg gamma_prob /\
    dummy_result self
      = poisson_prob (fallback_rate cfg gamma_prob) beta_m.
Proof.
  intros Hk Hth Hbe Hp Hm. eexists. split.
  - unfold __init__, mbind, io_bind, mret, io_ret. cbn [run]. rewrite Hk.
    erewrite load_s3_run; [|exact Hth|exact Hbe].
    erewrite load_jsons_ok; [|exact Hp|exact Hm].
    reflexivity.
  - simpl. rewrite manifest_comp_sets. repeat split; reflexivity.
Qed.

(** X21 on the scenario store, with an older file at a staging path. *)
Lemma init_s3_store_witness :
  exists self : HPFScoring,
    run (__init__ scenario_cfg toy_gamma_prob toy_poisson_prob
           (scenario_store S3DataStore (Npz scenario_theta)))
        {[ user_matrix_tmp := Corrupt ]}
      = (∅, Ok self) /\
    packages self = 3%nat.
Proof.
  destruct (init_s3_store scenario_cfg toy_gamma_prob toy_poisson_prob
              (scenario_store S3DataStore (Npz scenario_theta))
              {[ user_matrix_tmp := Corrupt ]}
              scenario_theta scenario_beta
              [("a", 0); ("b", 1); ("c", 2)] [("0", [0; 1])]
              eq_refl eq_refl eq_refl eq_refl eq_refl)
    as (self & Hrun & _ & _ & _ & Hpk & _).
  exists self. split; [|exact Hpk].
  rewrite Hrun. reflexivity.
Defined.

(** X22: when the theta object does not decode, [load_s3] stops there: the
    downloaded file stays at its staging path and beta is not fetched; when
    theta decodes and the beta object does not, the theta staging file has
    been removed and the beta one stays. *)
Theorem load_s3_decode_failure (cfg : Config) (self : HPFScoring)
    (fs : gmap string file) :
  (bucket (datastore self) !! theta_matrix_key cfg = Some Corrupt ->
   exists e : exn,
     run (load_s3 cfg self) fs
     = (<[user_matrix_tmp := Corrupt]> fs, Raise e)) /\
  (forall theta_m : matrix,
     bucket (datastore self) !! theta_matrix_key cfg = Some (Npz theta_m) ->
     bucket (datastore self) !! beta_matrix_key cfg = Some Corrupt ->
     exists e : exn,
       run (load_s3 cfg self) fs
       = (<[item_matrix_tmp := Corrupt]> (delete user_matrix_tmp fs),
          Raise e)).
Proof.
  split.
  - intros Hth. exists ValueError. unfold load_s3.
    fold (theta_matrix_key cfg).
    unfold mbind, io_bind, download_file, load_npz. cbn [run].
    rewrite Hth. cbn [run]. rewrite lookup_insert_eq. reflexivity.
  - intros theta_m Hth Hbe. exists ValueError. unfold load_s3.
    fold (theta_matrix_key cfg). fold (beta_matrix_key cfg).
    rewrite (stage_decode_remove (datastore self) _ _ theta_m
               _ (fun m => _ ← download_file _ _ _; _) Hth).
    unfold mbind, io_bind, download_file, load_npz. cbn [run].
    cbn [datastore set_theta]. rewrite Hbe. cbn [run].
    rewrite lookup_insert_eq. reflexivity.
Qed.

(** X22 on a store whose beta object does not decode. *)
Lemma load_s3_decode_failure_witness :
  exists e : exn,
    run (load_s3 scenario_cfg corrupt_beta_object) ∅
    = (<[item_matrix_tmp := Corrupt]> (delete user_matrix_tmp ∅), Raise e).
Proof.
  apply (proj2 (load_s3_decode_failure scenario_cfg corrupt_beta_object ∅)
           scenario_theta); reflexivity.
Defined.

(** ** [predict]: the range of the ratio and the extreme thresholds *)

Lemma missing_names_size (self : HPFScoring) (input_stack : list string) :
  (size (missing_names self input_stack)
   <= size (list_to_set input_stack : gset string))%nat.
Proof.
  apply subseteq_size. intros n Hn.
  apply missing_names_spec in Hn as [Hn _]. apply elem_of_list_to_set, Hn.
Qed.

Lemma stack_size_pos (input_stack : list string) :
  input_stack ≠ [] ->
  (0 < size (list_to_set input_stack : gset string))%nat.
Proof.
  intros Hne.
  destruct (size (list_to_set input_stack : gset string)) eqn:Hsz; [|lia].
  apply size_empty_inv in Hsz.
  destruct input_stack as [|x l]; [contradiction|].
  exfalso. apply (not_elem_of_empty (C:=gset string) x).
  rewrite <- (Hsz x). apply elem_of_list_to_set, list_elem_of_here.
Qed.

Lemma missing_ratio_range (self : HPFScoring) (input_stack : list string) :
  input_stack ≠ [] ->
  (0 <= missing_ratio self input_stack)%Q /\
  (missing_ratio self input_stack <= 1)%Q.
Proof.
  intros Hne. pose proof (stack_size_pos input_stack Hne) as Hpos.
  pose proof (missing_names_size self input_stack) as Hle.
  unfold missing_ratio.
  assert (0 < inject_Z (Z.of_nat (size (list_to_set input_stack : gset string))))%Q
    as Hq by (rewrite <- (Zlt_Qlt 0); lia).
  split.
  - apply Qle_shift_div_l; [exact Hq|]. rewrite Qmult_0_l.
    rewrite <- (Zle_Qle 0). lia.
  - apply Qle_shift_div_r; [exact Hq|]. rewrite Qmult_1_l.
    rewrite <- Zle_Qle. lia.
Qed.

(** X23: on a non-empty stack the missing ratio lies between [0] and [1],
    so a threshold of zero or less never lets a stack through ([predict]
    returns no recommendation), and a threshold above one lets every stack
    through, also one without any known name: [predict] then returns what
    [folding_in] returns, or raises what it raises. *)
Theorem predict_threshold_extremes (cfg : Config)
    (poisson_prob : list Q -> matrix -> matrix) (self : HPFScoring)
    (input_stack : list string) :
  input_stack ≠ [] ->
  (0 <= missing_ratio self input_stack <= 1)%Q /\
  ((UNKNOWN_PACKAGES_THRESHOLD cfg <= 0)%Q ->
   exists topics,
     predict cfg poisson_prob self input_stack
     = Ok ([], topics, elements (missing_names self input_stack))) /\
  ((1 < UNKNOWN_PACKAGES_THRESHOLD cfg)%Q ->
   exists topics,
     predict cfg poisson_prob self input_stack
     = (recs ← folding_in cfg poisson_prob self (input_ids self input_stack);
        Ok (recs, topics, elements (missing_names self input_stack)))).
Proof.
  intros Hne. destruct (missing_ratio_range self input_stack Hne) as [H0 H1].
  split; [split; assumption|]. split.
  - intros Ht. apply predict_threshold_breach; [exact Hne|].
    eapply Qle_trans; eassumption.
  - intros Ht.
    destruct (predict_nonempty cfg poisson_prob self input_stack Hne)
      as [t Hp].
    exists t. rewrite Hp. unfold Qlt_bool.
    destruct (Qle_bool _ _) eqn:Hle; [|reflexivity].
    apply Qle_bool_iff in Hle. exfalso.
    apply (Qlt_not_le _ _ Ht). eapply Qle_trans; eassumption.
Qed.

(** X23 on the scenario model, whose threshold is one half. *)
Lemma predict_threshold_extremes_witness :
  (0 <= missing_ratio scenario_model ["a"; "z"] <= 1)%Q.
Proof.
  apply (predict_threshold_extremes scenario_cfg toy_poisson_prob
           scenario_model ["a"; "z"]).
  discriminate.
Defined.

(** ** [normalize_result]: ids that are no package index *)

(** X24: only the ids of the input set that are indices below [array_len]
    count in [normalize_result]: two input sets with the same such ids
    give the same outcome. *)
Theorem normalize_result_ids_in_range (self : HPFScoring) (result : matrix)
    (ids1 ids2 : gset Z) (array_len : option nat) :
  (forall i : nat,
     (i < default (packages self) array_len)%nat ->
     (Z.of_nat i ∈ ids1 <-> Z.of_nat i ∈ ids2)) ->
  normalize_result self result ids1 array_len
  = normalize_result self result ids2 array_len.
Proof.
  intros H. unfold normalize_result.
  set (n := default (packages self) array_len) in *.
  assert (forall l, Forall (fun i => (i < n)%nat) l ->
            mapM_res (fun i : nat =>
                        if bool_decide (Z.of_nat i ∈ ids1) then Ok (-1)%Q
                        else row ← np_index result (Z.of_nat i); Ok (mean row))
                     l
            = mapM_res (fun i : nat =>
                          if bool_decide (Z.of_nat i ∈ ids2) then Ok (-1)%Q
                          else row ← np_index result (Z.of_nat i);
                               Ok (mean row))
                       l) as Hmap.
  { induction 1 as [|i l Hi _ IH]; [reflexivity|]. simpl.
    rewrite (bool_decide_ext _ _ (H i Hi)), IH. reflexivity. }
  apply Hmap, Forall_forall. intros i Hi. apply elem_of_seq in Hi. lia.
Qed.

(** X24 on the scenario model: the id [7] is no index of its packages. *)
Lemma normalize_result_ids_in_range_witness :
  normalize_result scenario_model (dummy_result scenario_model) {[1; 7]} None
  = normalize_result scenario_model (dummy_result scenario_model) {[1]} None.
Proof.
  apply (normalize_result_ids_in_range scenario_model
           (dummy_result scenario_model) {[1; 7]} {[1]} None).
  intros i Hi. simpl in Hi.
  rewrite elem_of_union, !elem_of_singleton. split; [|auto].
  intros [?|?]; [assumption|lia].
Defined.

(** ** [folding_in]: the fallback scores *)

Lemma load_jsons_fields (cfg : Config) (self self' : HPFScoring) :
  load_jsons cfg self = Ok self' ->
  exists pid idp mid, self' = set_dicts self pid idp mid.
Proof.
  unfold load_jsons, read_json_file.
  fold (package_id_dict_path cfg). fold (manifest_id_dict_path cfg).
  intros H.
  destruct (documents (datastore self) !! package_id_dict_path cfg)
    as [[d|d]|]; cbn [mbind res_bind] in H; [| |discriminate].
  - destruct (documents (datastore self) !! manifest_id_dict_path cfg)
      as [[d'|d']|]; cbn [mbind res_bind] in H; [| |discriminate].
    + destruct (dict_of_items d') as [|]; cbn [mbind res_bind] in H;
        [|discriminate].
      inversion H. eauto.
    + inversion H. eauto.
  - destruct (dict_of_items d) as [|]; cbn [mbind res_bind] in H;
      [|discriminate].
    destruct (documents (datastore self) !! manifest_id_dict_path cfg)
      as [[d'|d']|]; cbn [mbind res_bind] in H; [| |discriminate].
    + destruct (dict_of_items d') as [|]; cbn [mbind res_bind] in H;
        [|discriminate].
      inversion H. eauto.
    + inversion H. eauto.
Qed.

Lemma load_s3_fields (cfg : Config) (self self' : HPFScoring)
    (fs fs' : gmap string file) :
  run (load_s3 cfg self) fs = (fs', Ok self') ->
  exists theta_m beta_m,
    load_jsons cfg (set_beta (set_theta self theta_m) beta_m) = Ok self'.
Proof.
  unfold load_s3, mbind, io_bind, download_file, load_npz, os_remove, lift.
  cbn [run]. intros H.
  destruct (bucket (datastore self) !! _) as [f|]; cbn [run] in H;
    [|discriminate].
  rewrite lookup_insert_eq in H.
  destruct f as [theta_m|]; cbn [run] in H; [|discriminate].
  rewrite lookup_insert_eq in H. cbn [run datastore set_theta] in H.
  destruct (bucket (datastore self) !! _) as [f|]; cbn [run] in H;
    [|discriminate].
  rewrite lookup_insert_eq in H.
  destruct f as [beta_m|]; cbn [run] in H; [|discriminate].
  rewrite lookup_insert_eq in H. cbn [run] in H.
  destruct (load_jsons cfg _) as [s|e] eqn:Hj; [|discriminate].
  inversion H; subst. eauto.
Qed.

Lemma load_local_fields (cfg : Config) (self self' : HPFScoring)
    (fs fs' : gmap string file) :
  run (load_local cfg self) fs = (fs', Ok self') ->
  exists theta_m beta_m,
    load_jsons cfg (set_beta (set_theta self theta_m) beta_m) = Ok self'.
Proof.
  unfold load_local, mbind, io_bind, load_npz, lift. cbn [run]. intros H.
  destruct (fs !! _) as [[theta_m|]|]; cbn [run] in H; try discriminate.
  cbn [datastore set_theta] in H.
  destruct (fs !! _) as [[beta_m|]|]; cbn [run] in H; try discriminate.
  destruct (load_jsons cfg _) as [s|e] eqn:Hj; [|discriminate].
  inversion H; subst. eauto.
Qed.

(** What the constructor leaves in the object: the fallback rate comes from
    the configuration alone, the fallback scores from it and beta. *)
Lemma init_fallback (cfg : Config) (gamma_prob : Q -> Q -> Q -> Q)
    (poisson_prob : list Q -> matrix -> matrix) (ds : DataStore)
    (fs fs' : gmap string file) (self : HPFScoring) :
  run (__init__ cfg gamma_prob poisson_prob ds) fs = (fs', Ok self) ->
  theta_dummy self = fallback_rate cfg gamma_prob /\
  dummy_result self = poisson_prob (fallback_rate cfg gamma_prob) (beta self) /\
  packages self = length (beta self) /\
  dict_wf (package_id_dict self) /\
  id_package_dict self = invert (package_id_dict self).
Proof.
  unfold __init__, mbind, io_bind, mret, io_ret. cbn [run].
  match goal with
  | |- context [load_s3 cfg ?s] => set (self0 := s)
  end.
  destruct (run _ fs) as [fs1 [self1|e]] eqn:Hload; intros [= <- <-].
  assert (exists theta_m beta_m,
            load_jsons cfg (set_beta (set_theta self0 theta_m) beta_m)
            = Ok self1) as (th & be & Hj).
  { destruct (kind ds);
      [eapply load_s3_fields, Hload|eapply load_local_fields, Hload]. }
  pose proof (load_jsons_inv _ _ _ Hj) as (Hwf & Hinv & _).
  apply load_jsons_fields in Hj as (pid & idp & mid & ->).
  repeat split; try reflexivity; assumption.
Qed.

Lemma np_index_in_range {A} (l : list A) (z : Z) :
  - Z.of_nat (length l) <= z < Z.of_nat (length l) ->
  exists x, np_index l z = Ok x.
Proof.
  intros Hz. unfold np_index.
  destruct (Z.ltb_spec z 0).
  - destruct (Z.leb_spec 0 (Z.of_nat (length l) + z)); [|lia].
    destruct (Z.ltb_spec (Z.of_nat (length l) + z) (Z.of_nat (length l)));
      [|lia].
    simpl.
    destruct (lookup_lt_is_Some_2 l (Z.to_nat (Z.of_nat (length l) + z)))
      as [x Hx]; [lia|].
    rewrite Hx. eauto.
  - destruct (Z.leb_spec 0 z); [|lia].
    destruct (Z.ltb_spec z (Z.of_nat (length l))); [|lia].
    simpl. destruct (lookup_lt_is_Some_2 l (Z.to_nat z)) as [x Hx]; [lia|].
    rewrite Hx. eauto.
Qed.

Lemma normalised_lookup (result : matrix) (input_id_set : gset Z)
    (n i : nat) (x : Q) :
  (normalised_score result input_id_set <$> seq 0 n) !! i = Some x ->
  (i < n)%nat /\ x = normalised_score result input_id_set i.
Proof.
  rewrite list_lookup_fmap. intros H.
  destruct (seq 0 n !! i) as [j|] eqn:Hj; [|discriminate].
  apply lookup_seq in Hj as [-> Hlt]. simpl in H. inversion H. auto.
Qed.

(** The list [filter_recommendation] builds from a vector of normalised
    scores when every package has a name. *)
Lemma filter_normalised (self : HPFScoring) (result : matrix)
    (input_id_set : gset Z) (max_count : Z) :
  names_cover self (packages self) = true ->
  exists recs : list recommendation,
    filter_recommendation self
      (normalised_score result input_id_set <$> seq 0 (packages self))
      max_count = Ok recs /\
    Forall2 (fun (i : nat) (r : recommendation) =>
               (i < packages self)%nat /\
               cooccurrence_probability r
                 = (normalised_score result input_id_set i * 100)%Q /\
               dict_get (id_package_dict self) (Z.of_nat i)
                 = Some (package_name r) /\
               topic_list r = [])
            (slice_from (- max_count)
               (argsort (normalised_score result input_id_set
                         <$> seq 0 (packages self))))
            recs /\
    (0 < max_count ->
     Z.of_nat (length recs) = Z.min max_count (Z.of_nat (packages self))).
Proof.
  intros Hnames.
  set (normalised := normalised_score result input_id_set
                     <$> seq 0 (packages self)).
  assert (length normalised = packages self) as Hlen
    by (unfold normalised; rewrite length_fmap, length_seq; reflexivity).
  assert (names_cover self (length normalised) = true) as Hnames'
    by (rewrite Hlen; exact Hnames).
  pose proof (filter_recommendation_eq self normalised max_count Hnames')
    as Heq.
  eexists. split; [exact Heq|]. split.
  - unfold argsort. rewrite slice_from_fmap.
    apply Forall2_fmap, Forall_Forall2_diag, Forall_forall.
    intros [i x] Hp.
    assert ((i, x) ∈ sort_pairs (imap (fun i x => (i, x)) normalised)) as Hin.
    { destruct (slice_from_suffix (- max_count)
                  (sort_pairs (imap (fun i x => (i, x)) normalised)))
        as [k Hk].
      rewrite Hk. apply elem_of_app. auto. }
    apply sort_pairs_lookup in Hin.
    apply normalised_lookup in Hin as [Hlt ->].
    destruct (names_cover_lookup self _ _ Hnames Hlt) as [name Hname].
    simpl. rewrite Hname. auto.
  - intros Hk. rewrite (filter_recommendation_length _ _ _ _ Hk Heq), Hlen.
    reflexivity.
Qed.

(** A loaded model whose package dictionary uses every row of beta as an
    id has a name for every package. *)
Lemma ids_cover_names (self : HPFScoring) :
  dict_wf (package_id_dict self) ->
  id_package_dict self = invert (package_id_dict self) ->
  ids_cover self = true ->
  names_cover self (packages self) = true.
Proof.
  intros Hwf Hinv Hids. unfold ids_cover in Hids. unfold names_cover.
  rewrite forallb_forall in Hids |- *. intros i Hi.
  specialize (Hids i Hi). rewrite bool_decide_eq_true in Hids |- *.
  apply list_elem_of_fmap in Hids as ([n x] & Hx & Hin). simpl in Hx.
  subst x. rewrite Hinv. unfold invert, dict_comp.
  rewrite dict_of_items_get.
  apply (dict_get_is_Some _ _ n), invert_elem, Hin.
Qed.

(** C9: in a model built by the constructor, the fallback scores are the
    Poisson scores of the fallback rate against beta, fixed at load time by
    the configuration and beta alone, one row per package.  When no manifest
    matches the input set, [folding_in] scores the input against them: the
    score of a package is [-1] if it is in the input set and the mean of
    its fallback row otherwise, whatever theta holds and without a new
    Poisson evaluation; [folding_in] is [filter_recommendation] on that
    vector, and when every row of beta is the id of a name of the package
    dictionary it returns the list of the kept packages, each with one
    hundred times that score, its name and an empty topic list.  So every
    input set that matches no manifest, or a manifest whose key is [-1] or
    a row of theta, gets a recommendation list, of
    [min (MAX_COMPANION_REC_COUNT, packages)] entries when the count is
    positive. *)
Theorem folding_in_fallback_scores (cfg : Config)
    (gamma_prob : Q -> Q -> Q -> Q)
    (poisson_prob : list Q -> matrix -> matrix)
    (ds : DataStore) (fs fs' : gmap string file) (self : HPFScoring) :
  run (__init__ cfg gamma_prob poisson_prob ds) fs = (fs', Ok self) ->
  (forall rate b, length (poisson_prob rate b) = length b) ->
  dummy_result self
    = poisson_prob (fallback_rate cfg gamma_prob) (beta self) /\
  length (dummy_result self) = packages self /\
  forall input_id_set : gset Z,
    (match_manifest self input_id_set = PyInt (-1) ->
     normalize_result self (dummy_result self) input_id_set None
       = Ok (normalised_score (dummy_result self) input_id_set
             <$> seq 0 (packages self)) /\
     folding_in cfg poisson_prob self input_id_set
       = filter_recommendation self
           (normalised_score (dummy_result self) input_id_set
            <$> seq 0 (packages self))
           (MAX_COMPANION_REC_COUNT cfg) /\
     (forall (theta' : matrix) (poisson_prob' : list Q -> matrix -> matrix),
        folding_in cfg poisson_prob' (set_theta self theta') input_id_set
        = folding_in cfg poisson_prob self input_id_set) /\
     (ids_cover self = true ->
      exists recs : list recommendation,
        folding_in cfg poisson_prob self input_id_set = Ok recs /\
        Forall2 (fun (i : nat) (r : recommendation) =>
                   (i < packages self)%nat /\
                   cooccurrence_probability r
                     = (normalised_score (dummy_result self) input_id_set i
                        * 100)%Q /\
                   dict_get (id_package_dict self) (Z.of_nat i)
                     = Some (package_name r) /\
                   topic_list r = [])
                (slice_from (- MAX_COMPANION_REC_COUNT cfg)
                   (argsort (normalised_score (dummy_result self) input_id_set
                             <$> seq 0 (packages self))))
                recs /\
        (0 < MAX_COMPANION_REC_COUNT cfg ->
         Z.of_nat (length recs)
         = Z.min (MAX_COMPANION_REC_COUNT cfg) (Z.of_nat (packages self))))) /\
    (ids_cover self = true ->
     match_manifest self input_id_set = PyInt (-1) \/
     (exists (manifest_id : string) (z : Z),
        match_manifest self input_id_set = PyStr manifest_id /\
        int_of_str manifest_id = Ok z /\
        (z = -1 \/
         - Z.of_nat (length (theta self)) <= z < Z.of_nat (length (theta self)))) ->
     exists recs : list recommendation,
       folding_in cfg poisson_prob self input_id_set = Ok recs /\
       (0 < MAX_COMPANION_REC_COUNT cfg ->
        Z.of_nat (length recs)
        = Z.min (MAX_COMPANION_REC_COUNT cfg) (Z.of_nat (packages self)))).
Proof.
  intros Hinit Hshape.
  apply init_fallback in Hinit as (_ & Hdummy & Hpk & Hwf & Hinv).
  assert (length (dummy_result self) = packages self) as Hdlen
    by (rewrite Hdummy, Hshape, Hpk; reflexivity).
  split; [exact Hdummy|]. split; [exact Hdlen|]. intros ids.
  assert (forall result : matrix,
            length result = packages self ->
            (normalised_result ←
               normalize_result self result ids None;
             filter_recommendation self normalised_result
               (MAX_COMPANION_REC_COUNT cfg))
            = filter_recommendation self
                (normalised_score result ids <$> seq 0 (packages self))
                (MAX_COMPANION_REC_COUNT cfg)) as Hpipe.
  { intros result Hlen. rewrite normalize_result_eq by lia. reflexivity. }
  assert (match_manifest self ids = PyInt (-1) ->
          folding_in cfg poisson_prob self ids
          = filter_recommendation self
              (normalised_score (dummy_result self) ids
               <$> seq 0 (packages self))
              (MAX_COMPANION_REC_COUNT cfg)) as Hfallback.
  { intros Hno. rewrite (folding_in_no_match cfg poisson_prob _ _ Hno).
    apply Hpipe, Hdlen. }
  split.
  - intros Hno. split; [apply normalize_result_eq; lia|].
    split; [exact (Hfallback Hno)|]. split.
    + intros theta' pp'.
      rewrite (folding_in_no_match cfg pp' (set_theta self theta') ids Hno).
      rewrite (folding_in_no_match cfg poisson_prob self ids Hno).
      reflexivity.
    + intros Hids.
      pose proof (ids_cover_names self Hwf Hinv Hids) as Hnames.
      destruct (filter_normalised self (dummy_result self) ids
                  (MAX_COMPANION_REC_COUNT cfg) Hnames)
        as (recs & Hrecs & Hent & Hcount).
      exists recs. rewrite (Hfallback Hno). auto.
  - intros Hids Hcase.
    pose proof (ids_cover_names self Hwf Hinv Hids) as Hnames.
    assert (forall result : matrix,
              length result = packages self ->
              exists recs : list recommendation,
                (normalised_result ←
                   normalize_result self result ids None;
                 filter_recommendation self normalised_result
                   (MAX_COMPANION_REC_COUNT cfg)) = Ok recs /\
                (0 < MAX_COMPANION_REC_COUNT cfg ->
                 Z.of_nat (length recs)
                 = Z.min (MAX_COMPANION_REC_COUNT cfg)
                     (Z.of_nat (packages self)))) as Hlist.
    { intros result Hlen. rewrite (Hpipe result Hlen).
      destruct (filter_normalised self result ids
                  (MAX_COMPANION_REC_COUNT cfg) Hnames)
        as (recs & Hrecs & _ & Hcount).
      eauto. }
    destruct Hcase as [Hno|(k & z & Hk & Hz & Hrow)].
    + rewrite (folding_in_no_match cfg poisson_prob _ _ Hno).
      apply Hlist, Hdlen.
    + unfold folding_in. rewrite Hk. cbn [py_int]. rewrite Hz.
      cbn [mbind res_bind].
      destruct (Z.eqb_spec z (-1)) as [Heq|Hne].
      * cbn [mbind res_bind]. apply Hlist, Hdlen.
      * destruct Hrow as [?|Hrow]; [contradiction|].
        destruct (np_index_in_range (theta self) z Hrow) as [row Hidx].
        rewrite Hidx. cbn [mbind res_bind]. apply Hlist.
        rewrite Hshape, Hpk. reflexivity.
Qed.

(** C9 on the scenario model: the id-set [{1, 2}] matches no manifest; the
    three packages come back, [b] and [c] with one hundred times the
    sentinel and [a] with one hundred times the mean of its fallback row. *)
Lemma folding_in_fallback_scores_witness :
  dummy_result scenario_model
    = toy_poisson_prob (fallback_rate scenario_cfg toy_gamma_prob)
        (beta scenario_model) /\
  match_manifest scenario_model {[1; 2]} = PyInt (-1) /\
  exists recs : list recommendation,
    folding_in scenario_cfg toy_poisson_prob scenario_model {[1; 2]}
      = Ok recs /\
    Forall2 (fun (i : nat) (r : recommendation) =>
               (i < 3)%nat /\
               cooccurrence_probability r
                 = (normalised_score (dummy_result scenario_model)
                      {[1%Z; 2%Z]} i * 100)%Q /\
               dict_get (id_package_dict scenario_model) (Z.of_nat i)
                 = Some (package_name r) /\
               topic_list r = [])
            [1; 2; 0]%nat recs /\
    Z.of_nat (length recs) = 3.
Proof.
  destruct (folding_in_fallback_scores scenario_cfg toy_gamma_prob
              toy_poisson_prob (scenario_store S3DataStore (Npz scenario_theta))
              ∅ ∅ scenario_model scenario_model_loaded toy_poisson_prob_rows)
    as (Hdummy & _ & Hall).
  assert (match_manifest scenario_model {[1; 2]} = PyInt (-1)) as Hno
    by (vm_compute; reflexivity).
  split; [exact Hdummy|]. split; [exact Hno|].
  destruct (proj1 (Hall {[1; 2]}) Hno) as (_ & _ & _ & Hlist).
  destruct (Hlist eq_refl) as (recs & Hrecs & Hent & Hcount).
  exists recs. split; [exact Hrecs|]. split; [exact Hent|].
  exact (Hcount eq_refl).
Defined.
